(** * GravityCollector-Client: a shallow embedding of [src/helpers.py] and
    [src/client.py], with the interpolation of option values that
    [configparser] does for [read_config], and the properties of its
    specification.

    Python text is a sequence of Unicode code points, bytes are [Byte.byte],
    [int] is [Z] and [float] is IEEE binary64 (Rocq's primitive [float]).
    A call that may raise is a computation in the exception monad [py]. *)

From Stdlib Require Import ZArith NArith List String Ascii Floats Lia.
From stdpp Require Import gmap list.

#[local] Set Warnings "-register-all,-inexact-float".
#[local] Open Scope Z_scope.

(** ** Python values and exceptions *)

(** A [str]: the code points of the text. *)
Definition str := list N.

(** The text of a literal of the source. *)
Definition u (s : string) : str :=
  List.map N_of_ascii (list_ascii_of_string s).

(** The exception classes the modelled code raises or catches. *)
Inductive exn :=
| ValueError | TypeError | IndexError | KeyError | AttributeError
| OverflowError | FileNotFoundError | ConnectionError
| ConnectionRefusedError | JSONDecodeError
| MissingSectionHeaderError | InterpolationSyntaxError
| InterpolationMissingOptionError | InterpolationDepthError.

(** The outcome of evaluating an expression: a value or a raised exception. *)
Inductive py (A : Type) :=
| Ret (a : A)
| Raise (e : exn).
Arguments Ret {A} a.
Arguments Raise {A} e.

#[global] Instance py_ret : MRet py := fun _ a => Ret a.
#[global] Instance py_bind : MBind py := fun _ _ f m =>
  match m with
  | Ret a => f a
  | Raise e => Raise e
  end.

(** [l[i]] for a non-negative index. *)
Definition getitem {A} (l : list A) (i : nat) : py A :=
  match l !! i with
  | Some x => Ret x
  | None => Raise IndexError
  end.

(** [l.pop()]: the last element and the list without it. *)
Definition pop {A} (l : list A) : py (A * list A) :=
  match last l with
  | Some x => Ret (x, removelast l)
  | None => Raise IndexError
  end.

(** [s.split(sep)] for a one-character separator. *)
Fixpoint split (sep : N) (s : str) : list str :=
  match s with
  | [] => [[]]
  | c :: r =>
      if (c =? sep)%N then [] :: split sep r
      else match split sep r with
           | tok :: toks => (c :: tok) :: toks
           | [] => [[c]]
           end
  end.

Definition lower_char (c : N) : N :=
  if ((65 <=? c) && (c <=? 90))%N then (c + 32)%N else c.

(** [s.lower()], on the ASCII letters (the names the source lowers are its own
    ASCII constants and option names). *)
Definition lower (s : str) : str := List.map lower_char s.

Definition upper_char (c : N) : N :=
  if ((97 <=? c) && (c <=? 122))%N then (c - 32)%N else c.

(** [s.upper()], on the ASCII letters. *)
Definition upper (s : str) : str := List.map upper_char s.

Fixpoint lstrip (chars : list N) (s : str) : str :=
  match s with
  | [] => []
  | c :: r => if bool_decide (c ∈ chars) then lstrip chars r else s
  end.

(** [s.strip(chars)]: both ends lose the characters of [chars]. *)
Definition strip (chars : list N) (s : str) : str :=
  rev (lstrip chars (rev (lstrip chars s))).

(** *** [bytes.decode('utf-8', errors='ignore')]

    CPython's decoder: a well-formed sequence gives its code point; an
    ill-formed one is dropped up to the byte that broke it, and decoding goes on
    from there; a sequence cut short by the end of the input is dropped. *)

Definition is_cont (b : N) : bool := ((128 <=? b) && (b <? 192))%N.

(** The second byte of a three-byte sequence led by [b1]: [E0] needs
    [A0..BF], [ED] needs [80..9F]. *)
Definition second_of_3 (b1 b2 : N) : bool :=
  is_cont b2 &&
  (if (b1 =? 224)%N then (160 <=? b2)%N
   else if (b1 =? 237)%N then (b2 <? 160)%N else true).

(** The second byte of a four-byte sequence led by [b1]: [F0] needs
    [90..BF], [F4] needs [80..8F]. *)
Definition second_of_4 (b1 b2 : N) : bool :=
  is_cont b2 &&
  (if (b1 =? 240)%N then (144 <=? b2)%N
   else if (b1 =? 244)%N then (b2 <? 144)%N else true).

Definition cp2 (b1 b2 : N) : N := ((b1 - 192) * 64 + (b2 - 128))%N.
Definition cp3 (b1 b2 b3 : N) : N :=
  ((b1 - 224) * 4096 + (b2 - 128) * 64 + (b3 - 128))%N.
Definition cp4 (b1 b2 b3 b4 : N) : N :=
  ((b1 - 240) * 262144 + (b2 - 128) * 4096 + (b3 - 128) * 64 + (b4 - 128))%N.

Fixpoint utf8_decode_ignore (bs : list N) : str :=
  match bs with
  | [] => []
  | b1 :: r1 =>
      if (b1 <? 128)%N then b1 :: utf8_decode_ignore r1
      else if (b1 <? 194)%N then utf8_decode_ignore r1
      else if (b1 <? 224)%N then
        match r1 with
        | [] => []
        | b2 :: r2 =>
            if is_cont b2 then cp2 b1 b2 :: utf8_decode_ignore r2
            else utf8_decode_ignore r1
        end
      else if (b1 <? 240)%N then
        match r1 with
        | [] => []
        | b2 :: r2 =>
            if second_of_3 b1 b2 then
              match r2 with
              | [] => []
              | b3 :: r3 =>
                  if is_cont b3 then cp3 b1 b2 b3 :: utf8_decode_ignore r3
                  else utf8_decode_ignore r2
              end
            else utf8_decode_ignore r1
        end
      else if (b1 <? 245)%N then
        match r1 with
        | [] => []
        | b2 :: r2 =>
            if second_of_4 b1 b2 then
              match r2 with
              | [] => []
              | b3 :: r3 =>
                  if is_cont b3 then
                    match r3 with
                    | [] => []
                    | b4 :: r4 =>
                        if is_cont b4
                        then cp4 b1 b2 b3 b4 :: utf8_decode_ignore r4
                        else utf8_decode_ignore r3
                    end
                  else utf8_decode_ignore r2
              end
            else utf8_decode_ignore r1
        end
      else utf8_decode_ignore r1
  end.

(** The arguments [decode_bytearr] is applied to or that the specification
    names: text, [bytes] or [bytearray], and values that are not iterable. *)
Inductive pyobj :=
| PyStr (s : str)
| PyBytes (b : list Byte.byte)
| PyInt (z : Z)
| PyFloat (f : float)
| PyNone.

(** The integers that [bytes([c for c in o ...])] is built from. An [int],
    a [float] and [None] are not iterable; a non-empty [str] yields text, which
    [bytes] refuses. *)
Definition iter_ints (o : pyobj) : py (list N) :=
  match o with
  | PyBytes b => Ret (List.map Byte.to_N b)
  | PyStr [] => Ret []
  | PyStr _ | PyInt _ | PyFloat _ | PyNone => Raise TypeError
  end.

(** [float(n)] for an [int]: the nearest binary64, ties to even;
    [OverflowError] when that is not finite. *)
Definition float_of_int (z : Z) : py float :=
  let f := SF2Prim (binary_normalize prec emax z 0 false) in
  if PrimFloat.is_infinity f then Raise OverflowError else Ret f.

(** What the interpreter and the platform supply to [helpers.py]. [None]
    stands for [ValueError], the one exception these calls raise on text. *)
Class PyRuntime := {
  (** [int(s)] *)
  py_int : str -> option Z;
  (** [float(s)] *)
  py_float : str -> option float;
  (** [datetime.strptime(s, '%Y%m%d%H%M%S').timestamp()] *)
  strptime_timestamp : str -> option float;
  (** [datetime.utcnow().timestamp()] *)
  utcnow_timestamp : float
}.

Module helpers.

(** ** [src/helpers.py] *)

Definition _marine_fieldmap : list str :=
  List.map u ["header"; "gravity"; "long_acc"; "cross_acc"; "beam";
              "s_temperature"; "pressure"; "e_temperature";
              "vcc"; "ve"; "al"; "ax"; "status"; "checksum";
              "latitude"; "longitude"; "speed"; "course"; "datetime"]%string.

Definition _airborne_fieldmap : list str :=
  List.map u ["header"; "gravity"; "long_acc"; "cross_acc"; "beam";
              "s_temperature"; "status"; "pressure"; "e_temperature";
              "latitude"; "longitude"]%string.

(** [list(chain(range(0, 32), [255, 256]))] *)
Definition ILLEGAL_CHARS : list N :=
  List.map N.of_nat (seq 0 32) ++ [255; 256]%N.

(** A value stored in an extracted reading. *)
Inductive value :=
| VStr (s : str)
| VInt (z : Z)
| VFloat (f : float).

(** The callables that [_field_casts] holds, and its default [int]. *)
Inductive cast := cast_str | cast_float | cast_int | cast_marine_time.

Definition gps_delta : float := 315964800.0%float.
Definition gpsweek_cf : float := 604800%float.

Definition convert_gps_time (gpsweek : Z) (gpsweekseconds : float) : py float :=
  fw ← float_of_int gpsweek;
  let gps_ticks := (fw * gpsweek_cf + gpsweekseconds)%float in
  let timestamp := (gps_delta + gps_ticks)%float in
  Ret timestamp.

Definition decode_bytearr (bytearr : pyobj) : py (option str) :=
  match bytearr with
  | PyStr s => Ret (Some s)
  | _ =>
      match (cs ← iter_ints bytearr;
             let raw := List.filter (fun c => bool_decide (c ∉ ILLEGAL_CHARS)) cs in
             Ret (strip [13; 10]%N (utf8_decode_ignore raw))) with
      | Ret decoded => Ret (Some decoded)
      | Raise AttributeError => Ret None
      | Raise e => Raise e
      end
  end.

Definition _field_casts : gmap str cast :=
  list_to_map [(u "header", cast_str);
               (u "latitude", cast_float);
               (u "longitude", cast_float);
               (u "speed", cast_float);
               (u "course", cast_float);
               (u "datetime", cast_marine_time)].

Section Extraction.
Context `{PyRuntime}.

Definition convert_marine_time (meter_time : str) : float :=
  match strptime_timestamp meter_time with
  | Some t => t
  | None => utcnow_timestamp
  end.

(** Calling a cast on a token. *)
Definition apply_cast (c : cast) (tok : str) : py value :=
  match c with
  | cast_str => Ret (VStr tok)
  | cast_float =>
      match py_float tok with
      | Some f => Ret (VFloat f)
      | None => Raise ValueError
      end
  | cast_int =>
      match py_int tok with
      | Some z => Ret (VInt z)
      | None => Raise ValueError
      end
  | cast_marine_time => Ret (VFloat (convert_marine_time tok))
  end.

(** The [for i, field in enumerate(fieldmap)] loop of both extractors, from
    index [i] on. [key] is the name the value is stored under: the field as it
    is for the marine loop, lowered for the airborne one. [Ret None] is the
    [return None] of the [except IndexError] clause. *)
Fixpoint fields_loop (key : str -> str) (i : nat) (fieldmap : list str)
    (data fields : list str) (extracted : gmap str value)
    : py (option (gmap str value)) :=
  match fieldmap with
  | [] => Ret (Some extracted)
  | field :: rest =>
      if bool_decide (lower field ∈ fields) then
        match (tok ← getitem data i;
               v ← apply_cast (default cast_int (_field_casts !! lower field)) tok;
               Ret (<[key field := v]> extracted)) with
        | Ret extracted' => fields_loop key (S i) rest data fields extracted'
        | Raise ValueError =>
            match getitem data i with
            | Ret tok =>
                fields_loop key (S i) rest data fields
                  (<[key field := VStr tok]> extracted)
            | Raise e => Raise e
            end
        | Raise IndexError => Ret None
        | Raise e => Raise e
        end
      else fields_loop key (S i) rest data fields extracted
  end.

Definition _extract_airborne_fields (data : str) (fields : list str)
    : py (option (gmap str value)) :=
  let data := split 44 data in
  if negb (length data =? length _airborne_fieldmap + 2)%nat then Ret None
  else
    match ('(tok2, data) ← pop data;
           match py_float tok2 with
           | None => Raise ValueError
           | Some gpssecond =>
               '(tok1, data) ← pop data;
               match py_int tok1 with
               | None => Raise ValueError
               | Some gpsweek =>
                   dt ← convert_gps_time gpsweek gpssecond;
                   Ret (dt, data)
               end
           end) with
    | Raise ValueError | Raise TypeError => Ret None
    | Raise e => Raise e
    | Ret (dt, data) =>
        r ← fields_loop lower 0 _airborne_fieldmap data fields ∅;
        match r with
        | None => Ret None
        | Some extracted => Ret (Some (<[u "datetime" := VFloat dt]> extracted))
        end
    end.

Definition _extract_marine_fields (data : str) (fields : list str)
    : py (option (gmap str value)) :=
  let data := split 44 data in
  if negb (length data =? length _marine_fieldmap)%nat then Ret None
  else fields_loop id 0 _marine_fieldmap data fields ∅.

Definition get_extractor (sensor_type : str)
    : str -> list str -> py (option (gmap str value)) :=
  if bool_decide (upper sensor_type = u "AT1M") then _extract_marine_fields
  else _extract_airborne_fields.

Definition sensor_fields : list str :=
  List.map u ["g0"; "GravCal"; "LongCal"; "CrossCal"; "LongOffset";
              "CrossOffset"; "stempgain"; "Temperature"; "stempoffset";
              "pressgain"; "presszero"; "beamgain"; "beamzero";
              "Etempgain"; "Etempzero"; "Meter"]%string.

Definition cc_fields : list str :=
  List.map u ["vcc"; "ve"; "al"; "ax"; "monitors"]%string.

Definition platform_fields : list str :=
  List.map u ["Cross_Damping"; "Cross_Periode"; "Cross_Lead"; "Cross_Gain";
              "Cross_Comp"; "Cross_Phcomp"; "Cross_sp"; "Long_Damping";
              "Long_Period"; "Long_Lead"; "Long_Gain"; "Long_Comp";
              "Long_Phcomp"; "Long_sp"; "zerolong"; "zerocross"; "CrossSp";
              "LongSp"]%string.

Definition valid_fields : gset str :=
  list_to_set sensor_fields ∪ list_to_set cc_fields ∪ list_to_set platform_fields.

(** What [config.read] leaves in the parser [config]: [optionxform], which
    the parser applies to option names ([str.lower] in the parser that
    [read_config] creates); the options of the [DEFAULT] section; and the
    options of every other section. A dictionary of options holds the names
    and their raw values in the order of insertion. *)
Record ConfigParser := {
  optionxform : str → str;
  _defaults : list (str * str);
  _sections : gmap str (list (str * str))
}.

(** What [read_config] sees of the file system and of [configparser]:
    whether the path exists, and the parser that [config.read] leaves, or the
    exception it raises. *)
Record config_file := {
  path_exists : bool;
  config_read : py ConfigParser
}.

(** [_unify_values(section, None)]: the chain of the section's own options
    and the defaults, looked up in that order. *)
Definition _unify_values (config : ConfigParser) (sectiondict : list (str * str))
    : gmap str str :=
  list_to_map (sectiondict ++ _defaults config).

(** [options(section)]: the names of the section's own options, then those
    of the defaults that the section does not have. *)
Definition options (config : ConfigParser) (sectiondict : list (str * str))
    : list str :=
  sectiondict.*1 ++ filter (fun k => k ∉ sectiondict.*1) (_defaults config).*1.

(** [configparser.MAX_INTERPOLATION_DEPTH] *)
Definition MAX_INTERPOLATION_DEPTH : nat := 10.

(** The [while rest:] loop of [BasicInterpolation._interpolate_some], taken
    one character at a time. With [var = None] the loop is in plain text:
    characters other than ["%"] go to [accum]; after a ["%"] come a second
    ["%"], which stands for one, or ["("], which opens a reference; anything
    else, or the end, is a syntax error. With [var = Some name] the loop is
    inside [%(name)s], where the pattern [%\(([^)]+)\)s] has to match: [name]
    grows up to the first [")"], must not be empty, and an ["s"] must follow.
    The value of the reference is looked up in [map] under
    [optionxform(name)]; it is appended as it is, or, when it holds a ["%"],
    interpolated one level [deeper]. *)
Fixpoint interpolate_while (optionxform : str → str) (map : gmap str str)
    (deeper : str → str → py str) (rest : str) (var : option str)
    (accum : str) {struct rest} : py str :=
  match rest, var with
  | [], None => Ret accum
  | [], Some _ => Raise InterpolationSyntaxError
  | c :: rest, None =>
      if negb (c =? 37)%N then
        interpolate_while optionxform map deeper rest None (accum ++ [c])
      else
        match rest with
        | [] => Raise InterpolationSyntaxError
        | c :: rest =>
            if (c =? 37)%N then
              interpolate_while optionxform map deeper rest None (accum ++ [37%N])
            else if (c =? 40)%N then
              interpolate_while optionxform map deeper rest (Some []) accum
            else Raise InterpolationSyntaxError
        end
  | c :: rest, Some name =>
      if negb (c =? 41)%N then
        interpolate_while optionxform map deeper rest (Some (name ++ [c])) accum
      else
        match name, rest with
        | _ :: _, c :: rest =>
            if (c =? 115)%N then
              match map !! optionxform name with
              | None => Raise InterpolationMissingOptionError
              | Some v =>
                  accum ← (if bool_decide (37%N ∈ v) then deeper accum v
                           else Ret (accum ++ v));
                  interpolate_while optionxform map deeper rest None accum
              end
            else Raise InterpolationSyntaxError
        | _, _ => Raise InterpolationSyntaxError
        end
  end.

(** [_interpolate_some(parser, option, accum, rest, section, map, depth)],
    with [room] for [MAX_INTERPOLATION_DEPTH + 1 - depth]: no room is left
    when [depth > MAX_INTERPOLATION_DEPTH]. *)
Fixpoint _interpolate_some (optionxform : str → str) (map : gmap str str)
    (room : nat) (accum rest : str) : py str :=
  match room with
  | O => Raise InterpolationDepthError
  | S room =>
      interpolate_while optionxform map
        (_interpolate_some optionxform map room) rest None accum
  end.

(** [BasicInterpolation.before_get]: the interpolation starts at depth 1 on
    an empty accumulator. *)
Definition before_get (config : ConfigParser) (map : gmap str str)
    (value : str) : py str :=
  _interpolate_some (optionxform config) map MAX_INTERPOLATION_DEPTH [] value.

(** [configparser.DEFAULTSECT] *)
Definition DEFAULTSECT : str := u "DEFAULT".

(** [dict(config[name])]. The [DEFAULT] section is always there, with no
    options of its own; any other section that the parser does not have
    gives [KeyError]. The dictionary has the value of every option of
    [options], in that order, each found through [has_option] and [get]
    under [optionxform] of its name and interpolated. *)
Definition section (config : ConfigParser) (name : str) : py (gmap str str) :=
  match (if bool_decide (name = DEFAULTSECT) then Some []
         else _sections config !! name) with
  | None => Raise KeyError
  | Some sectiondict =>
      let d := _unify_values config sectiondict in
      items ← mapM (fun key =>
                      match d !! optionxform config key with
                      | None => Raise KeyError
                      | Some value =>
                          value ← before_get config d value;
                          Ret (key, value)
                      end)
                   (options config sectiondict);
      Ret (list_to_map items)
  end.

Definition safe_cast (v : str) : value :=
  match py_float v with
  | Some f => VFloat f
  | None => VStr v
  end.

Definition read_config (path : config_file) : py (gmap str value) :=
  if negb (path_exists path) then Raise FileNotFoundError
  else
    match config_read path with
    | Raise MissingSectionHeaderError => Ret ∅
    | Raise e => Raise e
    | Ret config =>
        sensor_fld ← section config (u "Sensor");
        xcoupling_fld ← section config (u "crosscouplings");
        platform_fld ← section config (u "Platform");
        let merged := platform_fld ∪ xcoupling_fld ∪ sensor_fld in
        Ret (list_to_map
               ((fun kv => (lower kv.1, safe_cast kv.2)) <$>
                filter (fun kv => lower kv.1 ∈ set_map (D:=gset str) lower valid_fields)
                  (map_to_list merged)))
    end.

End Extraction.

End helpers.

Module client.
Import helpers.

(** ** [src/client.py] *)

(** A decoded JSON document; [JNull] is Python's [None]. *)
Inductive json :=
| JNull
| JBool (b : bool)
| JInt (z : Z)
| JFloat (f : float)
| JStr (s : str)
| JArr (l : list json)
| JObj (m : gmap str json).

(** The truth value [if j:] tests. *)
Definition truthy (j : json) : bool :=
  match j with
  | JNull => false
  | JBool b => b
  | JInt z => negb (z =? 0)
  | JFloat f => negb (f =? 0)%float
  | JStr s => negb (bool_decide (s = []))
  | JArr l => match l with [] => false | _ => true end
  | JObj m => negb (bool_decide (m = ∅))
  end.

(** [j[k]] for a text key. *)
Definition subscript (j : json) (k : str) : py json :=
  match j with
  | JObj m =>
      match m !! k with
      | Some v => Ret v
      | None => Raise KeyError
      end
  | _ => Raise TypeError
  end.

(** [j.get(k, d)] *)
Definition get_default (j : json) (k : str) (d : json) : py json :=
  match j with
  | JObj m => Ret (default d (m !! k))
  | _ => Raise AttributeError
  end.

(** An HTTP response: its status, and what [response.json()] gives
    ([Raise JSONDecodeError] for a body that is not JSON). *)
Record response := {
  status_code : Z;
  response_json : py json
}.

(** *** [SerialListener] *)

(** [b.find(x)] for a one-byte [x]: the first index, or [-1]. *)
Fixpoint find (x : Byte.byte) (b : list Byte.byte) : Z :=
  match b with
  | [] => -1
  | c :: r =>
      if Byte.eqb c x then 0
      else let i := find x r in if i <? 0 then -1 else i + 1
  end.

Definition LF : Byte.byte := Byte.x0a.

(** The [while not self._exiting.is_set()] loop of [readline]. [reads] is
    what the successive [self._handle.read(i)] return while the exit signal is
    not set; the signal is seen set when [reads] is used up. The result is the
    returned object, the buffer and the reads that are left. *)
Fixpoint readline_wait (buffer : list Byte.byte) (reads : list (list Byte.byte))
    : pyobj * list Byte.byte * list (list Byte.byte) :=
  match reads with
  | [] => (PyBytes [], buffer, [])
  | data :: reads =>
      match data with
      | [] => (PyStr [], buffer, reads)
      | _ =>
          let i := find LF data in
          if 0 <=? i then
            (PyBytes (buffer ++ take (Z.to_nat (i + 1)) data),
             drop (Z.to_nat (i + 1)) data, reads)
          else readline_wait (buffer ++ data) reads
      end
  end.

Definition readline (buffer : list Byte.byte) (reads : list (list Byte.byte))
    : pyobj * list Byte.byte * list (list Byte.byte) :=
  let i := find LF buffer in
  if 0 <=? i then
    (PyBytes (take (Z.to_nat (i + 1)) buffer),
     drop (Z.to_nat (i + 1)) buffer, reads)
  else readline_wait buffer reads.

(** At most [n] turns of the loop of [listen]: the queue it leaves, and the
    exception that ended it, if one did. *)
Fixpoint listen (n : nat) (buffer : list Byte.byte)
    (reads : list (list Byte.byte)) (queue : list str)
    : list str * option exn :=
  match n with
  | O => (queue, None)
  | S n =>
      match reads with
      | [] => (queue, None)
      | _ =>
          let '(raw, buffer, reads) := readline buffer reads in
          match decode_bytearr raw with
          | Raise e => (queue, Some e)
          | Ret None => listen n buffer reads queue
          | Ret (Some line) =>
              if bool_decide (line = []) then listen n buffer reads queue
              else listen n buffer reads (queue ++ [line])
          end
      end
  end.

(** *** [HTTPSender] *)

Definition fields : list str :=
  List.map u ["gravity"; "long_acc"; "cross_acc"; "beam"; "pressure";
              "e_temperature"; "s_temperature"; "latitude"; "longitude";
              "datetime"]%string.

(** [{'data': batch_queue, 'length': len(batch_queue)}] *)
Record payload := {
  payload_data : list (gmap str value);
  payload_length : nat
}.

(** One turn of the loop of [run], as the world presents it: the line
    [self._queue.get] returns ([None] when it times out with [Empty]), and what
    [self.session.post] would answer in this turn. *)
Record tick := {
  queue_get : option str;
  post_reply : py response
}.

Definition fail_reply (reason : string) : json :=
  JObj (<[u "Status" := JStr (u "FAIL")]> (<[u "Reason" := JStr (u reason)]> ∅)).

Definition _send_line (reply : py response) : py json :=
  match (response ← reply; response_json response) with
  | Raise ConnectionError | Raise ConnectionRefusedError =>
      Ret (fail_reply "Max Retries Exhausted")
  | Raise JSONDecodeError => Ret (fail_reply "JSONDecodeError")
  | r => r
  end.

Definition batch : nat := 10.

(** How one turn of the loop ends: the batch it leaves, the payload it
    posted, and the exception that escaped, if any. *)
Record turn := {
  batch_queue : list (gmap str value);
  posted : option payload;
  raised : option exn
}.

Section Sender.
Context `{PyRuntime}.
Variable sensor_type : str.

Definition run_turn (batch_queue : list (gmap str value)) (t : tick) : turn :=
  match queue_get t with
  | None => {| batch_queue := batch_queue; posted := None; raised := None |}
  | Some line =>
      match get_extractor sensor_type line fields with
      | Raise e =>
          {| batch_queue := batch_queue; posted := None; raised := Some e |}
      | Ret None =>
          {| batch_queue := batch_queue; posted := None; raised := None |}
      | Ret (Some data) =>
          let batch_queue := data :: batch_queue in
          if (length batch_queue <? batch)%nat then
            {| batch_queue := batch_queue; posted := None; raised := None |}
          else
            let payload := {| payload_data := batch_queue;
                              payload_length := length batch_queue |} in
            match _send_line (post_reply t) with
            | Raise ConnectionError =>
                {| batch_queue := batch_queue; posted := Some payload;
                   raised := None |}
            | Raise e =>
                {| batch_queue := batch_queue; posted := Some payload;
                   raised := Some e |}
            | Ret result =>
                match get_default result (u "Status") (JStr (u "FAIL")) with
                | Raise e =>
                    {| batch_queue := batch_queue; posted := Some payload;
                       raised := Some e |}
                | Ret (JStr s) =>
                    if bool_decide (s = u "OK") then
                      {| batch_queue := []; posted := Some payload;
                         raised := None |}
                    else
                      {| batch_queue := batch_queue; posted := Some payload;
                         raised := None |}
                | Ret _ =>
                    {| batch_queue := batch_queue; posted := Some payload;
                       raised := None |}
                end
            end
      end
  end.

(** The loop of [run] over the turns taken before the exit signal is set:
    the payloads posted, in order, the batch left, and the exception that ended
    the thread, if one did. *)
Fixpoint run_from (batch_queue : list (gmap str value)) (ticks : list tick)
    : list payload * list (gmap str value) * option exn :=
  match ticks with
  | [] => ([], batch_queue, None)
  | t :: ticks =>
      let r := run_turn batch_queue t in
      let sent := match posted r with Some p => [p] | None => [] end in
      match raised r with
      | Some e => (sent, client.batch_queue r, Some e)
      | None =>
          let '(sent', b, e) := run_from (client.batch_queue r) ticks in
          (sent ++ sent', b, e)
      end
  end.

Definition run (ticks : list tick)
    : list payload * list (gmap str value) * option exn :=
  run_from [] ticks.

End Sender.

(** *** [establish_connection] *)

(** The collector as [establish_connection] meets it: the answers to the
    GET and to the PUT on a URI. *)
Record session := {
  session_get : str -> py response;
  session_put : str -> py response
}.

Section Connection.
Variable urljoin : str -> str -> str.

(** [None] is returned as [JNull]. *)
Definition establish_connection (s : session) (host sensor_name sensor_type : str)
    : py json :=
  let uri := urljoin host (u "/sensor/" ++ sensor_type ++ u "/" ++ sensor_name) in
  match (response ← session_get s uri;
         data ← response_json response;
         Ret (response, data)) with
  | Raise ConnectionError => Ret JNull
  | Raise JSONDecodeError => Ret JNull
  | Raise e => Raise e
  | Ret (response, data) =>
      if negb (status_code response =? 200) then Ret JNull
      else
        exists_ ← subscript data (u "Exists");
        if truthy exists_ then get_default data (u "SensorID") JNull
        else
          match (response ← session_put s uri; response_json response) with
          | Raise ConnectionError => Ret JNull
          | Raise JSONDecodeError => Ret JNull
          | Raise e => Raise e
          | Ret data => get_default data (u "SensorID") JNull
          end
  end.

End Connection.

End client.

(** ** An interpreter to run the model on

    [int] and [float] on plain ASCII decimal numerals (an optional sign, digits,
    for [float] an optional fraction), where they agree with Python's; the
    other spellings Python accepts are refused here. The marine clock string is
    read as fourteen digits of UTC. *)
Module sample.
Import helpers client.

Definition digit (c : N) : option Z :=
  if ((48 <=? c) && (c <=? 57))%N then Some (Z.of_N c - 48) else None.

Fixpoint digits (acc : Z) (s : str) : option Z :=
  match s with
  | [] => Some acc
  | c :: r => d ← digit c; digits (10 * acc + d) r
  end.

Definition numeral (s : str) : option Z :=
  match s with
  | [] => None
  | _ => digits 0 s
  end.

Definition int_of_str (s : str) : option Z :=
  match s with
  | 45%N :: r => Z.opp <$> numeral r
  | 43%N :: r => numeral r
  | _ => numeral s
  end.

(** The binary64 nearest to [m / d], ties to even, for [0 <= m] and [0 < d]:
    the quotient is taken with 64 bits and more and a sticky last bit. *)
Definition float_of_ratio (neg : bool) (m d : Z) : float :=
  let sh := Z.log2 d + 64 in
  let q := (m * 2 ^ sh) / d in
  let sticky := if (m * 2 ^ sh) mod d =? 0 then 0 else 1 in
  let n := 2 * q + sticky in
  SF2Prim (binary_normalize prec emax (if neg then - n else n) (- (sh + 1)) neg).

Definition unsigned_float (neg : bool) (s : str) : option float :=
  match split 46 s with
  | [whole] =>
      m ← numeral whole; Some (float_of_ratio neg m 1)
  | [whole; frac] =>
      m ← numeral (whole ++ frac);
      Some (float_of_ratio neg m (10 ^ Z.of_nat (length frac)))
  | _ => None
  end.

Definition float_of_str (s : str) : option float :=
  match s with
  | 45%N :: r => unsigned_float true r
  | 43%N :: r => unsigned_float false r
  | _ => unsigned_float false s
  end.

Definition days_in_month (y m : Z) : Z :=
  if m =? 2 then
    if ((y mod 4 =? 0) && negb (y mod 100 =? 0)) || (y mod 400 =? 0)
    then 29 else 28
  else if (m =? 4) || (m =? 6) || (m =? 9) || (m =? 11) then 30 else 31.

(** Days from 1970-01-01 to the civil date. *)
Definition days_from_civil (y m d : Z) : Z :=
  let y := if m <=? 2 then y - 1 else y in
  let era := y / 400 in
  let yoe := y - era * 400 in
  let doy := (153 * (if 2 <? m then m - 3 else m + 9) + 2) / 5 + d - 1 in
  let doe := yoe * 365 + yoe / 4 - yoe / 100 + doy in
  era * 146097 + doe - 719468.

Definition clock (s : str) : option float :=
  if negb (length s =? 14)%nat then None
  else
    y ← digits 0 (take 4 s);
    m ← digits 0 (take 2 (drop 4 s));
    d ← digits 0 (take 2 (drop 6 s));
    hh ← digits 0 (take 2 (drop 8 s));
    mm ← digits 0 (take 2 (drop 10 s));
    ss ← digits 0 (take 2 (drop 12 s));
    if (1 <=? y) && (1 <=? m) && (m <=? 12) && (1 <=? d)
       && (d <=? days_in_month y m) && (hh <? 24) && (mm <? 60) && (ss <? 60)
    then Some (SF2Prim (binary_normalize prec emax
                 (days_from_civil y m d * 86400 + hh * 3600 + mm * 60 + ss)
                 0 false))
    else None.

#[export] Instance runtime : PyRuntime := {|
  py_int := int_of_str;
  py_float := float_of_str;
  strptime_timestamp := clock;
  utcnow_timestamp := 1541376000%float
|}.

(** A stand-in for [urllib.parse.urljoin] on a host without a path. *)
Definition urljoin (host path : str) : str := host ++ path.

(** A meter configuration as [configparser] reads it, option names in lower
    case: its three sections, the parser, and the file. *)
Definition meter_sensor : list (str * str) :=
  [(u "g0", u "10000.5"); (u "meter", u "AT1M-4")].

Definition meter_crosscouplings : list (str * str) :=
  [(u "vcc", u "0.1"); (u "g0", u "1")].

Definition meter_platform : list (str * str) :=
  [(u "cross_gain", u "2")].

Definition meter_config : ConfigParser := {|
  optionxform := lower;
  _defaults := [];
  _sections := list_to_map [(u "Sensor", meter_sensor);
                            (u "crosscouplings", meter_crosscouplings);
                            (u "Platform", meter_platform)]
|}.

Definition meter_ini : config_file := {|
  path_exists := true;
  config_read := Ret meter_config
|}.

(** A collector that knows the sensor as number 7. *)
Definition known_sensor : session := {|
  session_get := fun _ =>
    Ret {| status_code := 200;
           response_json := Ret (JObj (<[u "Exists" := JBool true]>
                                        (<[u "SensorID" := JInt 7]> ∅))) |};
  session_put := fun _ => Raise ConnectionError
|}.

(** A collector that does not know the sensor and registers it as
    number 8. *)
Definition new_sensor : session := {|
  session_get := fun _ =>
    Ret {| status_code := 200;
           response_json := Ret (JObj (<[u "Exists" := JBool false]> ∅)) |};
  session_put := fun _ =>
    Ret {| status_code := 201;
           response_json := Ret (JObj (<[u "SensorID" := JInt 8]> ∅)) |}
|}.

(** The collector's answer to a batch it took, and to one it refused. *)
Definition ok_reply : py response :=
  Ret {| status_code := 200;
         response_json := Ret (JObj (<[u "Status" := JStr (u "OK")]>
                                      (<[u "Count" := JInt 10]> ∅))) |}.

Definition refused_reply : py response :=
  Ret {| status_code := 500;
         response_json := Ret (JObj (<[u "Status" := JStr (u "FAIL")]> ∅)) |}.

(** An airborne line of GPS week 2000, second 0.0. *)
Definition airborne_line : str :=
  u "$UW,81251,-1070,4578,299,50,0,10058,4030,39.9092,-105.0747,2000,0.0".

(** Ten turns of the sender on that line, the collector taking the batch. *)
Definition ten_ticks : list tick :=
  replicate 10 {| queue_get := Some airborne_line; post_reply := ok_reply |}.

(** Eleven turns on that line, the collector refusing every batch. *)
Definition eleven_refused : list tick :=
  replicate 11 {| queue_get := Some airborne_line; post_reply := refused_reply |}.

(** What the serial port delivers: a line and the start of the next one, a
    read that times out, the rest of the second line with a NUL and an FF byte
    in it, a bare line end. *)
Definition serial_reads : list (list Byte.byte) :=
  [list_byte_of_string "$UW,1" ++ [Byte.x0d; Byte.x0a] ++ list_byte_of_string "$U";
   [];
   [Byte.x00; Byte.xff] ++ list_byte_of_string "W,2" ++ [Byte.x0d; Byte.x0a];
   [Byte.x0d; Byte.x0a]].

(** A marine line whose [beam] token is not a number. *)
Definition marine_line : str :=
  u "$UW,9838,-12,5,n/a,521,1013,318,0,0,0,0,0,77,39.9092,-105.0747,4.5,271.0,20181104000000".

End sample.

(** ** The rules of the specification *)

Import helpers client.

Section Rules.
Context `{PyRuntime}.

(** What the [try] statement of the field loop leaves under the field's key:
    the cast of the token, or the token itself when the cast raises. *)
Definition stored (field tok : str) : value :=
  match apply_cast (default cast_int (_field_casts !! lower field)) tok with
  | Ret v => v
  | Raise _ => VStr tok
  end.

(** The per-field rule as the specification words it. *)
Definition cast_by_rule (field tok : str) : value :=
  if bool_decide (field = u "header") then VStr tok
  else if bool_decide (field ∈ [u "latitude"; u "longitude"; u "speed"; u "course"])
  then match py_float tok with
       | Some x => VFloat x
       | None => VStr tok
       end
  else if bool_decide (field = u "datetime") then VFloat (convert_marine_time tok)
  else match py_int tok with
       | Some z => VInt z
       | None => VStr tok
       end.

End Rules.

(** The collector answered the POST with a JSON object whose [Status] is
    ["OK"]. *)
Definition replied_ok (reply : py response) : Prop :=
  ∃ response m,
    reply = Ret response ∧ response_json response = Ret (JObj m) ∧
    m !! u "Status" = Some (JStr (u "OK")).

(** The test [result.get('Status', 'FAIL') == 'OK'] of [run] on what
    [_send_line] returns. *)
Definition acknowledged (reply : py response) : bool :=
  match _send_line reply with
  | Ret result =>
      match get_default result (u "Status") (JStr (u "FAIL")) with
      | Ret (JStr s) => bool_decide (s = u "OK")
      | _ => false
      end
  | Raise _ => false
  end.

(** The reading that a turn of [run] adds to the batch, if it adds one. *)
Definition reading_of `{PyRuntime} (sensor_type : str) (t : tick)
    : option (gmap str value) :=
  match queue_get t with
  | Some line =>
      match get_extractor sensor_type line fields with
      | Ret (Some data) => Some data
      | _ => None
      end
  | None => None
  end.

(** A line fit for the queue: not empty, and free of line feeds and carriage
    returns. *)
Definition line_ok (line : str) : Prop :=
  line ≠ [] ∧ (10%N ∉ line) ∧ (13%N ∉ line).

(** The value an extraction result holds under [field], if it is a mapping
    that has one. *)
Definition result_field (field : str) (r : py (option (gmap str value)))
    : option value :=
  match r with
  | Ret (Some extracted) => extracted !! field
  | _ => None
  end.

(** The bits of a float value, to tell two of them apart. *)
Definition float_bits (v : option value) : option spec_float :=
  match v with
  | Some (VFloat f) => Some (Prim2SF f)
  | _ => None
  end.

(** The formula of the specification read from left to right,
    [315964800.0 + (gpsweek * 604800) + gpsweekseconds], the product being
    taken on the integers. *)
Definition gps_time_formula (gpsweek : Z) (gpsweekseconds : float) : py float :=
  product ← float_of_int (gpsweek * 604800);
  Ret (315964800.0 + product + gpsweekseconds)%float.

(** ** Encoding, the serial stream and further sample objects *)

(** [c.encode('utf-8')] for one character. *)
Definition utf8_encode_char (c : N) : list N :=
  if (c <? 128)%N then [c]
  else if (c <? 2048)%N then [192 + c / 64; 128 + c mod 64]%N
  else if (c <? 65536)%N then
    [224 + c / 4096; 128 + (c / 64) mod 64; 128 + c mod 64]%N
  else [240 + c / 262144; 128 + (c / 4096) mod 64;
        128 + (c / 64) mod 64; 128 + c mod 64]%N.

(** [s.encode('utf-8')] *)
Definition utf8_encode (s : str) : list N := flat_map utf8_encode_char s.

(** A code point that text can be encoded from: up to U+10FFFF, and no
    surrogate. *)
Definition scalar (c : N) : Prop :=
  (c < 55296 ∨ (57343 < c ∧ c < 1114112))%N.

(** The bytes of an object that [readline] returns. *)
Definition bytes_of (o : pyobj) : list Byte.byte :=
  match o with
  | PyBytes bs => bs
  | _ => []
  end.

(** A line of the serial stream: bytes free of line feeds, and the line feed
    that ends them. *)
Definition is_line (l : list Byte.byte) : Prop :=
  ∃ l0, l = l0 ++ [LF] ∧ (LF ∉ l0).

(** What [listen] puts on the queue for a line of the stream, if anything. *)
Definition enqueued (l : list Byte.byte) : option str :=
  match decode_bytearr (PyBytes l) with
  | Ret (Some line) => if bool_decide (line = []) then None else Some line
  | _ => None
  end.

(** The exceptions [_send_line] has a handler for. *)
Definition handled (e : exn) : Prop :=
  e = ConnectionError ∨ e = ConnectionRefusedError ∨ e = JSONDecodeError.



(** An airborne line whose GPS week has 401 digits. *)
Definition oversized_week_line : str :=
  u "$UW,81251,-1070,4578,299,50,0,10058,4030,39.9092,-105.0747,"
  ++ 49%N :: replicate 400 48%N ++ u ",0.0".

(** A collector that answers the batch with a JSON list. *)
Definition list_reply : py response :=
  Ret {| status_code := 200; response_json := Ret (JArr [JStr (u "OK")]) |}.

(** A collector whose lookup answer has no [Exists]. *)
Definition vague_collector : session := {|
  session_get := fun _ =>
    Ret {| status_code := 200;
           response_json := Ret (JObj (<[u "SensorID" := JInt 7]> ∅)) |};
  session_put := fun _ => Raise ConnectionError
|}.

(** The reading of the sample airborne line. *)
Definition airborne_reading : gmap str value :=
  Eval vm_compute in
    match _extract_airborne_fields (H:=sample.runtime) sample.airborne_line
            client.fields with
    | Ret (Some d) => d
    | _ => ∅
    end.

(** The bytes of a line with an accented letter, and its text. *)
Definition accented_bytes : list Byte.byte :=
  list_byte_of_string "$UW,caf" ++ [Byte.xc3; Byte.xa9].

Definition accented_text : str := u "$UW,caf" ++ [233%N].

(** A file that has no [Platform] section. *)
Definition headless_ini : config_file := {|
  path_exists := true;
  config_read :=
    Ret {| optionxform := lower;
           _defaults := [];
           _sections := list_to_map [(u "Sensor", sample.meter_sensor);
                                     (u "crosscouplings", sample.meter_crosscouplings)] |}
|}.

(** A file with its three sections whose only option, [Meter = 100%], has a
    name of the white list and a value with a lone per cent sign. *)
Definition percent_ini : config_file := {|
  path_exists := true;
  config_read :=
    Ret {| optionxform := lower;
           _defaults := [];
           _sections := list_to_map [(u "Sensor", [(u "meter", u "100%")]);
                                     (u "crosscouplings", []);
                                     (u "Platform", [])] |}
|}.

(** The same option in a file that has no [Platform] section. *)
Definition percent_headless_ini : config_file := {|
  path_exists := true;
  config_read :=
    Ret {| optionxform := lower;
           _defaults := [];
           _sections := list_to_map [(u "Sensor", [(u "meter", u "100%")]);
                                     (u "crosscouplings", [])] |}
|}.

(** A parser with a default option and references to other options. *)
Definition referring_config : ConfigParser := {|
  optionxform := lower;
  _defaults := [(u "unit", u "mGal")];
  _sections := list_to_map [(u "Sensor", [(u "g0", u "10000.5");
                                          (u "gravcal", u "%(G0)s");
                                          (u "meter", u "50%% %(unit)s")])]
|}.


Definition two_accepted : list tick :=
  replicate 2 {| queue_get := Some sample.airborne_line;
                 post_reply := sample.ok_reply |}.

(** A turn on the line with the oversized week. *)
Definition oversized_tick : tick :=
  {| queue_get := Some oversized_week_line; post_reply := sample.ok_reply |}.

(** A turn on the sample line, the collector answering with a list. *)
Definition list_tick : tick :=
  {| queue_get := Some sample.airborne_line; post_reply := list_reply |}.

(** Closed goals are settled by running the model. *)
Ltac run :=
  first [ vm_compute; reflexivity
        | apply (bool_decide_unpack _); vm_compute; exact I ].

(** ** Lists, text and tokens *)

Lemma pop_snoc {A} (l : list A) (x : A) : pop (l ++ [x]) = Ret (x, l).
Proof.
  unfold pop. rewrite last_snoc. f_equal. f_equal. apply removelast_last.
Qed.

Lemma length_snoc_inv {A} (l : list A) (n : nat) :
  length l = S n → ∃ l' x, l = l' ++ [x] ∧ length l' = n.
Proof.
  intros Hl. destruct (decide (l = [])) as [->|Hne]; [discriminate|].
  destruct (exists_last Hne) as (l' & x & ->).
  exists l', x. split; [done|]. rewrite length_app in Hl. simpl in Hl. lia.
Qed.

Lemma getitem_in_range {A} (l : list A) (i : nat) :
  (i < length l)%nat → ∃ x, l !! i = Some x ∧ getitem l i = Ret x.
Proof.
  intros Hi. destruct (lookup_lt_is_Some_2 l i Hi) as [x Hx].
  exists x. unfold getitem. by rewrite Hx.
Qed.

Lemma marine_names_lower : Forall (fun f => lower f = f) _marine_fieldmap.
Proof. vm_compute. repeat constructor. Qed.

Lemma marine_names_nodup : NoDup _marine_fieldmap.
Proof. apply (bool_decide_unpack _). vm_compute. exact I. Qed.

(** ** Field extraction *)

Section ExtractionFacts.
Context `{PyRuntime}.

Lemma field_casts_lookup (field : str) :
  _field_casts !! field
  = if bool_decide (field = u "header") then Some cast_str
    else if bool_decide (field ∈ [u "latitude"; u "longitude"; u "speed"; u "course"])
    then Some cast_float
    else if bool_decide (field = u "datetime") then Some cast_marine_time
    else None.
Proof.
  destruct (decide (field = u "header")) as [->|Hh]; [by vm_compute|].
  destruct (decide (field = u "latitude")) as [->|Hla]; [by vm_compute|].
  destruct (decide (field = u "longitude")) as [->|Hlo]; [by vm_compute|].
  destruct (decide (field = u "speed")) as [->|Hsp]; [by vm_compute|].
  destruct (decide (field = u "course")) as [->|Hco]; [by vm_compute|].
  destruct (decide (field = u "datetime")) as [->|Hdt]; [by vm_compute|].
  rewrite (bool_decide_false (field = u "header")) by done.
  rewrite (bool_decide_false (field = u "datetime")) by done.
  rewrite bool_decide_false
    by (rewrite !elem_of_cons, elem_of_nil; tauto).
  unfold _field_casts. simpl list_to_map.
  rewrite !lookup_insert_ne by done. apply lookup_empty.
Qed.

Lemma stored_by_rule (field tok : str) :
  lower field = field → stored field tok = cast_by_rule field tok.
Proof.
  intros Hl. unfold stored, cast_by_rule. rewrite Hl, field_casts_lookup.
  repeat case_bool_decide; simpl; try done.
  - by destruct (py_float tok).
  - by destruct (py_int tok).
Qed.

(** One turn of the loop on a wanted field whose token is there. *)
Lemma fields_loop_wanted key i field rest data fields e tok :
  lower field ∈ fields → data !! i = Some tok →
  fields_loop key i (field :: rest) data fields e
  = fields_loop key (S i) rest data fields (<[key field := stored field tok]> e).
Proof.
  intros Hw Htok. simpl. rewrite bool_decide_true by done.
  unfold getitem, stored. rewrite Htok. simpl.
  destruct (default cast_int (_field_casts !! lower field)); simpl; try done.
  - by destruct (py_float tok).
  - by destruct (py_int tok).
Qed.

Lemma fields_loop_unwanted key i field rest data fields e :
  lower field ∉ fields →
  fields_loop key i (field :: rest) data fields e
  = fields_loop key (S i) rest data fields e.
Proof. intros Hw. simpl. by rewrite bool_decide_false. Qed.

(** When every index of the loop is in range it runs to its end, and the
    mapping it returns holds the stored value of each wanted field and leaves
    every other key as it was. *)
Lemma fields_loop_spec key fieldmap : ∀ i data fields e,
  (i + length fieldmap ≤ length data)%nat →
  ∃ d, fields_loop key i fieldmap data fields e = Ret (Some d) ∧
    (∀ k, (∀ f, f ∈ fieldmap → lower f ∈ fields → key f ≠ k) → d !! k = e !! k) ∧
    (NoDup (key <$> fieldmap) →
     ∀ j f tok, fieldmap !! j = Some f → lower f ∈ fields →
       data !! (i + j)%nat = Some tok → d !! key f = Some (stored f tok)).
Proof.
  induction fieldmap as [|f rest IH]; intros i data fields e Hlen.
  - exists e. split; [done|]. split; [done|]. intros _ j f tok Hj. done.
  - simpl in Hlen.
    destruct (decide (lower f ∈ fields)) as [Hw|Hw].
    + destruct (lookup_lt_is_Some_2 data i ltac:(lia)) as [tok Htok].
      rewrite (fields_loop_wanted _ _ _ _ _ _ _ tok Hw Htok).
      destruct (IH (S i) data fields (<[key f := stored f tok]> e) ltac:(lia))
        as (d & Hd & Hother & Hin).
      exists d. split; [done|]. split.
      * intros k Hk. rewrite Hother.
        -- apply lookup_insert_ne. apply Hk; [left|done].
        -- intros f' Hf'. apply Hk. by right.
      * intros Hnd j f' tok' Hj Hw' Htok'.
        rewrite fmap_cons in Hnd. apply NoDup_cons in Hnd as [Hnotin Hnd].
        destruct j as [|j]; simpl in Hj.
        -- injection Hj as <-. rewrite Nat.add_0_r in Htok'.
           assert (tok' = tok) as -> by congruence.
           rewrite Hother; [apply lookup_insert_eq|].
           intros f' Hf' _ Heq. apply Hnotin. rewrite <- Heq.
           by apply list_elem_of_fmap_2.
        -- apply (Hin Hnd j f' tok' Hj Hw').
           by replace (S i + j)%nat with (i + S j)%nat by lia.
    + rewrite (fields_loop_unwanted _ _ _ _ _ _ _ Hw).
      destruct (IH (S i) data fields e ltac:(lia)) as (d & Hd & Hother & Hin).
      exists d. split; [done|]. split.
      * intros k Hk. apply Hother. intros f' Hf'. apply Hk. by right.
      * intros Hnd j f' tok' Hj Hw' Htok'.
        rewrite fmap_cons in Hnd. apply NoDup_cons in Hnd as [_ Hnd].
        destruct j as [|j]; simpl in Hj.
        -- injection Hj as <-. done.
        -- apply (Hin Hnd j f' tok' Hj Hw').
           by replace (S i + j)%nat with (i + S j)%nat by lia.
Qed.

Lemma extract_marine_mismatch (line : str) (fields : list str) :
  length (split 44 line) ≠ 19%nat →
  _extract_marine_fields line fields = Ret None.
Proof.
  intros Hn. unfold _extract_marine_fields.
  change (length _marine_fieldmap) with 19%nat.
  by destruct (Nat.eqb_spec (length (split 44 line)) 19).
Qed.

Lemma extract_marine_match (line : str) (fields : list str) :
  length (split 44 line) = 19%nat →
  _extract_marine_fields line fields
  = fields_loop id 0 _marine_fieldmap (split 44 line) fields ∅.
Proof.
  intros Hn. unfold _extract_marine_fields.
  change (length _marine_fieldmap) with 19%nat. by rewrite Hn.
Qed.

Lemma float_of_int_raise (z : Z) (e : exn) :
  float_of_int z = Raise e → e = OverflowError.
Proof.
  unfold float_of_int.
  destruct (PrimFloat.is_infinity _); [|discriminate]. congruence.
Qed.

Lemma convert_gps_time_unfold (gpsweek : Z) (gpsweekseconds : float) :
  convert_gps_time gpsweek gpsweekseconds
  = match float_of_int gpsweek with
    | Ret fw => Ret (315964800 + (fw * 604800 + gpsweekseconds))%float
    | Raise e => Raise e
    end.
Proof. unfold convert_gps_time. by destruct (float_of_int gpsweek). Qed.

Lemma convert_gps_time_raise (gpsweek : Z) (gpsweekseconds : float) (e : exn) :
  convert_gps_time gpsweek gpsweekseconds = Raise e → e = OverflowError.
Proof.
  rewrite convert_gps_time_unfold.
  destruct (float_of_int gpsweek) as [fw|e'] eqn:Hfw; [discriminate|].
  intros [= <-]. by apply (float_of_int_raise gpsweek).
Qed.

Lemma airborne_tokens (tokens : list str) :
  length tokens = 13%nat →
  ∃ rest t11 t12, tokens = rest ++ [t11; t12] ∧ length rest = 11%nat ∧
    tokens !! 11%nat = Some t11 ∧ tokens !! 12%nat = Some t12.
Proof.
  intros Hlen.
  destruct (length_snoc_inv tokens 12 Hlen) as (l12 & t12 & -> & Hl12).
  destruct (length_snoc_inv l12 11 Hl12) as (rest & t11 & -> & Hrest).
  exists rest, t11, t12. rewrite <- app_assoc. split; [done|]. split; [done|].
  split.
  - rewrite lookup_app_r by lia. by rewrite Hrest.
  - rewrite lookup_app_r by lia. by rewrite Hrest.
Qed.

Lemma extract_airborne_mismatch (line : str) (fields : list str) :
  length (split 44 line) ≠ 13%nat →
  _extract_airborne_fields line fields = Ret None.
Proof.
  intros Hn. unfold _extract_airborne_fields.
  change (length _airborne_fieldmap + 2)%nat with 13%nat.
  by destruct (Nat.eqb_spec (length (split 44 line)) 13).
Qed.

(** The airborne extractor on a line of thirteen tokens. *)
Lemma extract_airborne_match (line : str) (fields rest : list str) (t11 t12 : str) :
  split 44 line = rest ++ [t11; t12] → length rest = 11%nat →
  _extract_airborne_fields line fields
  = match py_float t12 with
    | None => Ret None
    | Some gpssecond =>
        match py_int t11 with
        | None => Ret None
        | Some gpsweek =>
            match convert_gps_time gpsweek gpssecond with
            | Raise e => Raise e
            | Ret dt =>
                match fields_loop lower 0 _airborne_fieldmap rest fields ∅ with
                | Ret (Some extracted) =>
                    Ret (Some (<[u "datetime" := VFloat dt]> extracted))
                | Ret None => Ret None
                | Raise e => Raise e
                end
            end
        end
    end.
Proof.
  intros Hsplit Hrest. unfold _extract_airborne_fields. rewrite Hsplit.
  change (length _airborne_fieldmap + 2)%nat with 13%nat.
  replace (length (rest ++ [t11; t12]) =? 13)%nat with true
    by (rewrite length_app, Hrest; reflexivity).
  cbv beta iota delta [negb].
  change (rest ++ [t11; t12]) with (rest ++ [t11] ++ [t12]).
  rewrite app_assoc, pop_snoc.
  cbn [mbind py_bind].
  destruct (py_float t12) as [gpssecond|]; [|done].
  rewrite pop_snoc.
  cbn [mbind py_bind].
  destruct (py_int t11) as [gpsweek|]; [|done].
  destruct (convert_gps_time gpsweek gpssecond) as [dt|e] eqn:Hdt;
    cbn [mbind py_bind].
  - destruct (fields_loop lower 0 _airborne_fieldmap rest fields ∅) as [[d|]|e];
      reflexivity.
  - rewrite (convert_gps_time_raise _ _ _ Hdt). reflexivity.
Qed.

End ExtractionFacts.

(** C1. Marine extraction returns no result when the comma-split token count
    differs from 19. When the count is 19 it returns a mapping whose keys are
    exactly the names of the marine layout that are wanted, the value under
    each being the token at the field's position cast by the per-field rule:
    [header] as text; [latitude], [longitude], [speed] and [course] as floating
    point; [datetime] by the instrument-time conversion; every other field as
    an integer; the raw token where the numeric cast fails. *)
Theorem marine_extraction_spec `{PyRuntime} (line : str) (fields : list str) :
  let tokens := split 44 line in
  (length tokens ≠ 19%nat → _extract_marine_fields line fields = Ret None) ∧
  (length tokens = 19%nat →
   ∃ extracted,
     _extract_marine_fields line fields = Ret (Some extracted) ∧
     (∀ k, k ∈ dom extracted ↔ k ∈ _marine_fieldmap ∧ k ∈ fields) ∧
     (∀ i k tok, _marine_fieldmap !! i = Some k → k ∈ fields →
        tokens !! i = Some tok →
        extracted !! k = Some (cast_by_rule k tok))).
Proof.
  intros tokens. split; [apply extract_marine_mismatch|].
  intros Hlen. rewrite (extract_marine_match _ _ Hlen). fold tokens.
  destruct (fields_loop_spec id _marine_fieldmap 0 tokens fields ∅)
    as (d & Hd & Hother & Hin).
  { change (length _marine_fieldmap) with 19%nat. lia. }
  assert (Hlow : ∀ f, f ∈ _marine_fieldmap → lower f = f).
  { apply Forall_forall, marine_names_lower. }
  assert (Hval : ∀ i k tok, _marine_fieldmap !! i = Some k → k ∈ fields →
            tokens !! i = Some tok → d !! k = Some (cast_by_rule k tok)).
  { intros i k tok Hi Hk Htok.
    assert (lower k = k) as Hlk by (apply Hlow; by eapply list_elem_of_lookup_2).
    rewrite <- (stored_by_rule k tok Hlk).
    apply (Hin ltac:(rewrite list_fmap_id; apply marine_names_nodup) i k tok Hi);
      [by rewrite Hlk | done]. }
  exists d. split; [done|]. split; [|done].
  intros k. rewrite elem_of_dom. split.
  - intros [v Hv].
    destruct (decide (k ∈ _marine_fieldmap ∧ k ∈ fields)) as [|Hno]; [done|].
    rewrite Hother, lookup_empty in Hv; [done|].
    intros f Hf Hw <-. apply Hno. split; [done|]. by rewrite <- (Hlow f Hf).
  - intros [Hk Hw]. apply list_elem_of_lookup_1 in Hk as [i Hi].
    destruct (lookup_lt_is_Some_2 tokens i) as [tok Htok].
    { apply lookup_lt_Some in Hi.
      change (length _marine_fieldmap) with 19%nat in Hi. lia. }
    rewrite (Hval i k tok Hi Hw Htok). by eexists.
Qed.

(** C2. Airborne extraction returns no result when the comma-split token
    count differs from 13, and when the last token does not parse as a float or
    the one before it does not parse as an integer. When both parse and the GPS
    conversion of the pair returns [dt], extraction returns a mapping that
    binds [datetime] to [dt], whatever the wanted fields are; and every mapping
    that extraction returns arises in that way. *)
Theorem airborne_extraction_spec `{PyRuntime} (line : str) (fields : list str) :
  let tokens := split 44 line in
  (length tokens ≠ 13%nat → _extract_airborne_fields line fields = Ret None) ∧
  (∀ t12, length tokens = 13%nat → tokens !! 12%nat = Some t12 →
     py_float t12 = None → _extract_airborne_fields line fields = Ret None) ∧
  (∀ t11, length tokens = 13%nat → tokens !! 11%nat = Some t11 →
     py_int t11 = None → _extract_airborne_fields line fields = Ret None) ∧
  (∀ t11 t12 gpsweek gpssecond dt,
     length tokens = 13%nat →
     tokens !! 11%nat = Some t11 → tokens !! 12%nat = Some t12 →
     py_int t11 = Some gpsweek → py_float t12 = Some gpssecond →
     convert_gps_time gpsweek gpssecond = Ret dt →
     ∃ extracted,
       _extract_airborne_fields line fields = Ret (Some extracted) ∧
       extracted !! u "datetime" = Some (VFloat dt)) ∧
  (∀ extracted,
     _extract_airborne_fields line fields = Ret (Some extracted) →
     ∃ t11 t12 gpsweek gpssecond dt,
       length tokens = 13%nat ∧
       tokens !! 11%nat = Some t11 ∧ tokens !! 12%nat = Some t12 ∧
       py_int t11 = Some gpsweek ∧ py_float t12 = Some gpssecond ∧
       convert_gps_time gpsweek gpssecond = Ret dt ∧
       extracted !! u "datetime" = Some (VFloat dt)).
Proof.
  intros tokens. split; [apply extract_airborne_mismatch|].
  assert (Hcase : ∀ P : Prop,
    length tokens = 13%nat →
    (∀ rest t11 t12, split 44 line = rest ++ [t11; t12] →
       length rest = 11%nat → tokens !! 11%nat = Some t11 →
       tokens !! 12%nat = Some t12 → P) → P).
  { intros P Hlen HP.
    destruct (airborne_tokens tokens Hlen) as (rest & t11 & t12 & ? & ? & ? & ?).
    by apply (HP rest t11 t12). }
  split; [|split; [|split]].
  - intros t12 Hlen H12 Hf. apply (Hcase _ Hlen).
    intros rest t11 t12' Hsplit Hrest _ H12'.
    rewrite (extract_airborne_match _ _ _ _ _ Hsplit Hrest).
    assert (t12' = t12) as -> by congruence. by rewrite Hf.
  - intros t11 Hlen H11 Hi. apply (Hcase _ Hlen).
    intros rest t11' t12 Hsplit Hrest H11' _.
    rewrite (extract_airborne_match _ _ _ _ _ Hsplit Hrest).
    assert (t11' = t11) as -> by congruence. rewrite Hi.
    by destruct (py_float t12).
  - intros t11 t12 gpsweek gpssecond dt Hlen H11 H12 Hi Hf Hdt.
    apply (Hcase _ Hlen). intros rest t11' t12' Hsplit Hrest H11' H12'.
    rewrite (extract_airborne_match _ _ _ _ _ Hsplit Hrest).
    assert (t11' = t11) as -> by congruence.
    assert (t12' = t12) as -> by congruence.
    rewrite Hf, Hi, Hdt.
    destruct (fields_loop_spec lower _airborne_fieldmap 0 rest fields ∅)
      as (d & -> & _).
    { change (length _airborne_fieldmap) with 11%nat. lia. }
    eexists. split; [done|]. apply lookup_insert_eq.
  - intros extracted Hret.
    destruct (decide (length tokens = 13%nat)) as [Hlen|Hlen].
    2: { rewrite extract_airborne_mismatch in Hret by done. discriminate. }
    apply (Hcase _ Hlen). intros rest t11 t12 Hsplit Hrest H11 H12.
    rewrite (extract_airborne_match _ _ _ _ _ Hsplit Hrest) in Hret.
    destruct (py_float t12) as [gpssecond|] eqn:Hf; [|discriminate].
    destruct (py_int t11) as [gpsweek|] eqn:Hi; [|discriminate].
    destruct (convert_gps_time gpsweek gpssecond) as [dt|e] eqn:Hdt;
      [|discriminate].
    destruct (fields_loop lower 0 _airborne_fieldmap rest fields ∅)
      as [[d|]|e]; try discriminate.
    injection Hret as <-.
    exists t11, t12, gpsweek, gpssecond, dt.
    repeat (split; [done|]). apply lookup_insert_eq.
Qed.

(** C10. Once the count of tokens has passed its check, the loop over the
    fields never misses a token: on a marine line of 19 tokens every index of
    the field map is in range and the loop does not take its
    [except IndexError] exit; on an airborne line of 13 tokens the two [pop]s
    leave 11 tokens, every index of the field map is in range and the loop does
    not take that exit either. So marine extraction returns no result only for
    a wrong count, and airborne extraction only for a wrong count or a trailing
    token that does not parse. *)
Theorem missing_token_unreachable `{PyRuntime} (line : str) (fields : list str) :
  let tokens := split 44 line in
  (length tokens = 19%nat →
     (∀ i, (i < length _marine_fieldmap)%nat →
        getitem tokens i ≠ Raise IndexError) ∧
     fields_loop id 0 _marine_fieldmap tokens fields ∅ ≠ Ret None) ∧
  (_extract_marine_fields line fields = Ret None → length tokens ≠ 19%nat) ∧
  (length tokens = 13%nat →
     ∃ t12 t11 data12 data,
       pop tokens = Ret (t12, data12) ∧ pop data12 = Ret (t11, data) ∧
       length data = 11%nat ∧
       (∀ i, (i < length _airborne_fieldmap)%nat →
          getitem data i ≠ Raise IndexError) ∧
       fields_loop lower 0 _airborne_fieldmap data fields ∅ ≠ Ret None) ∧
  (_extract_airborne_fields line fields = Ret None →
   length tokens ≠ 13%nat ∨
   (∃ t12, tokens !! 12%nat = Some t12 ∧ py_float t12 = None) ∨
   (∃ t11, tokens !! 11%nat = Some t11 ∧ py_int t11 = None)).
Proof.
  intros tokens.
  assert (Hget : ∀ (data : list str) n i, length data = n → (i < n)%nat →
            getitem data i ≠ Raise IndexError).
  { intros data n i Hn Hi.
    destruct (getitem_in_range data i) as (x & _ & ->); [lia|done]. }
  assert (Hmarine : length tokens = 19%nat →
            fields_loop id 0 _marine_fieldmap tokens fields ∅ ≠ Ret None).
  { intros Hlen.
    destruct (fields_loop_spec id _marine_fieldmap 0 tokens fields ∅)
      as (d & -> & _); [|done].
    change (length _marine_fieldmap) with 19%nat. lia. }
  assert (Hair : ∀ data, length data = 11%nat →
            fields_loop lower 0 _airborne_fieldmap data fields ∅ ≠ Ret None).
  { intros data Hlen.
    destruct (fields_loop_spec lower _airborne_fieldmap 0 data fields ∅)
      as (d & -> & _); [|done].
    change (length _airborne_fieldmap) with 11%nat. lia. }
  split; [|split; [|split]].
  - intros Hlen. split; [|by apply Hmarine].
    intros i Hi. by apply (Hget tokens 19%nat).
  - intros Hnone Hlen. rewrite (extract_marine_match _ _ Hlen) in Hnone.
    by apply Hmarine.
  - intros Hlen.
    destruct (airborne_tokens tokens Hlen) as (rest & t11 & t12 & Ht & Hrest & _).
    exists t12, t11, (rest ++ [t11]), rest.
    split; [|split; [|split; [|split]]].
    + rewrite Ht. change (rest ++ [t11; t12]) with (rest ++ [t11] ++ [t12]).
      by rewrite app_assoc, pop_snoc.
    + apply pop_snoc.
    + done.
    + intros i Hi. by apply (Hget rest 11%nat).
    + by apply Hair.
  - intros Hnone.
    destruct (decide (length tokens = 13%nat)) as [Hlen|Hlen]; [|by left].
    right.
    destruct (airborne_tokens tokens Hlen)
      as (rest & t11 & t12 & Ht & Hrest & H11 & H12).
    rewrite (extract_airborne_match _ _ _ _ _ Ht Hrest) in Hnone.
    destruct (py_float t12) as [gpssecond|] eqn:Hf; [|left; by exists t12].
    destruct (py_int t11) as [gpsweek|] eqn:Hi; [|right; by exists t11].
    destruct (convert_gps_time gpsweek gpssecond) as [dt|e]; [|discriminate].
    pose proof (Hair rest Hrest) as Hloop.
    by destruct (fields_loop lower 0 _airborne_fieldmap rest fields ∅)
      as [[d|]|e].
Qed.

(** C4 (as amended). For an airborne line of 13 tokens whose last two read
    as GPS week 2000 and second 0.0, extraction returns a mapping whose
    [datetime] is 1525564800.0, that is 315964800 + 2000 * 604800. *)
Theorem airborne_week_2000_timestamp `{PyRuntime}
    (line : str) (fields : list str) (t11 t12 : str) :
  length (split 44 line) = 13%nat →
  split 44 line !! 11%nat = Some t11 → split 44 line !! 12%nat = Some t12 →
  py_int t11 = Some 2000 → py_float t12 = Some 0%float →
  ∃ extracted,
    _extract_airborne_fields line fields = Ret (Some extracted) ∧
    extracted !! u "datetime" = Some (VFloat 1525564800%float).
Proof.
  intros Hlen H11 H12 Hi Hf.
  destruct (airborne_tokens _ Hlen) as (rest & t11' & t12' & Ht & Hrest & H11' & H12').
  assert (t11' = t11) as -> by congruence.
  assert (t12' = t12) as -> by congruence.
  rewrite (extract_airborne_match _ _ _ _ _ Ht Hrest), Hf, Hi.
  replace (convert_gps_time 2000 0) with (Ret 1525564800%float)
    by (vm_compute; reflexivity).
  destruct (fields_loop_spec lower _airborne_fieldmap 0 rest fields ∅)
    as (d & -> & _).
  { change (length _airborne_fieldmap) with 11%nat. lia. }
  eexists. split; [done|]. apply lookup_insert_eq.
Qed.

Lemma airborne_week_2000_witness :
  ∃ extracted,
    _extract_airborne_fields (H:=sample.runtime) sample.airborne_line client.fields
    = Ret (Some extracted) ∧
    extracted !! u "datetime" = Some (VFloat 1525564800%float).
Proof.
  apply (airborne_week_2000_timestamp (H:=sample.runtime)
           sample.airborne_line client.fields (u "2000") (u "0.0"));
    vm_compute; reflexivity.
Defined.

(** C4, as the specification states it, fails: on the airborne line of week
    2000 and second 0.0 the derived timestamp is not 1525764800.0. *)
Lemma airborne_week_2000_not_1525764800 :
  ¬ ∃ extracted,
      _extract_airborne_fields (H:=sample.runtime) sample.airborne_line client.fields
      = Ret (Some extracted) ∧
      extracted !! u "datetime" = Some (VFloat 1525764800%float).
Proof.
  intros (extracted & Hret & Hdt).
  assert (Hf : result_field (u "datetime")
                 (_extract_airborne_fields (H:=sample.runtime)
                    sample.airborne_line client.fields)
               = Some (VFloat 1525764800%float)) by (by rewrite Hret).
  apply (f_equal float_bits) in Hf. vm_compute in Hf. discriminate Hf.
Qed.

(** ** GPS time *)

(** The conversion and the left-to-right sum agree on the week of the
    specification's example. *)
Lemma convert_gps_time_week_2000 :
  convert_gps_time 2000 0 = Ret 1525564800%float ∧
  gps_time_formula 2000 0 = Ret 1525564800%float.
Proof. split; vm_compute; reflexivity. Qed.

(** An integer too large for binary64 makes the conversion raise. *)
Lemma convert_gps_time_overflow :
  convert_gps_time (2 ^ 1024) 0 = Raise OverflowError.
Proof. vm_compute. reflexivity. Qed.

(** C3, as the specification states it, fails: for GPS week 1736 and second
    394083.43 the conversion returns 1366291683.4299998, while
    315964800.0 + (1736 * 604800) + 394083.43 is 1366291683.43. *)
Lemma convert_gps_time_not_left_to_right :
  convert_gps_time 1736 394083.43 = Ret 1366291683.4299998%float ∧
  gps_time_formula 1736 394083.43 = Ret 1366291683.43%float ∧
  convert_gps_time 1736 394083.43 ≠ gps_time_formula 1736 394083.43.
Proof.
  split; [vm_compute; reflexivity|]. split; [vm_compute; reflexivity|].
  intros Heq.
  apply (f_equal (fun r => match r with
                           | Ret f => Some (Prim2SF f)
                           | Raise _ => None
                           end)) in Heq.
  vm_compute in Heq. discriminate Heq.
Qed.

(** C3 (as amended). For an integer [gpsweek] that [float] converts, the GPS
    time conversion returns the binary64 value of
    [315964800.0 + ((float(gpsweek) * 604800) + gpsweekseconds)], the seconds
    being added to the week product before the epoch offset; for an integer
    beyond the binary64 range it raises [OverflowError]. *)
Theorem gps_time_conversion (gpsweek : Z) (gpsweekseconds : float) :
  match float_of_int gpsweek with
  | Ret week =>
      convert_gps_time gpsweek gpsweekseconds
      = Ret (315964800 + (week * 604800 + gpsweekseconds))%float
  | Raise e =>
      e = OverflowError ∧
      convert_gps_time gpsweek gpsweekseconds = Raise OverflowError
  end.
Proof.
  rewrite convert_gps_time_unfold.
  destruct (float_of_int gpsweek) as [week|e] eqn:Hweek; [done|].
  by rewrite (float_of_int_raise _ _ Hweek).
Qed.

(** The marine extractor on a line of the sample interpreter. *)
Lemma marine_extraction_witness :
  ∃ extracted,
    _extract_marine_fields (H:=sample.runtime) sample.marine_line client.fields
    = Ret (Some extracted) ∧
    extracted !! u "gravity" = Some (VInt 9838) ∧
    extracted !! u "beam" = Some (VStr (u "n/a")) ∧
    extracted !! u "latitude" = Some (VFloat 39.9092%float) ∧
    extracted !! u "datetime" = Some (VFloat 1541289600%float) ∧
    extracted !! u "header" = None.
Proof.
  destruct (marine_extraction_spec (H:=sample.runtime)
              sample.marine_line client.fields) as [_ Hok].
  destruct (Hok ltac:(vm_compute; reflexivity)) as (d & Hd & Hdom & Hval).
  exists d. split; [exact Hd|].
  rewrite (Hval 1%nat (u "gravity") (u "9838")) by run.
  rewrite (Hval 4%nat (u "beam") (u "n/a")) by run.
  rewrite (Hval 14%nat (u "latitude") (u "39.9092")) by run.
  rewrite (Hval 18%nat (u "datetime") (u "20181104000000")) by run.
  repeat (split; [run|]).
  apply not_elem_of_dom. rewrite Hdom. intros [_ Hw].
  revert Hw. apply (bool_decide_unpack _). vm_compute. exact I.
Defined.

(** The airborne extractor on a line of the sample interpreter, with no
    wanted field at all. *)
Lemma airborne_extraction_witness :
  ∃ extracted,
    _extract_airborne_fields (H:=sample.runtime) sample.airborne_line []
    = Ret (Some extracted) ∧
    extracted !! u "datetime" = Some (VFloat 1525564800%float).
Proof.
  destruct (airborne_extraction_spec (H:=sample.runtime)
              sample.airborne_line []) as (_ & _ & _ & Hok & _).
  apply (Hok (u "2000") (u "0.0") 2000 0%float); vm_compute; reflexivity.
Defined.

(** The field loop on the lines of the sample interpreter. *)
Lemma missing_token_witness :
  fields_loop (H:=sample.runtime) id 0 _marine_fieldmap
    (split 44 sample.marine_line) client.fields ∅ ≠ Ret None ∧
  (_extract_airborne_fields (H:=sample.runtime) sample.marine_line client.fields
   = Ret None → length (split 44 sample.marine_line) ≠ 13%nat).
Proof.
  split.
  - destruct (missing_token_unreachable (H:=sample.runtime)
                sample.marine_line client.fields) as (Hm & _).
    apply (Hm ltac:(vm_compute; reflexivity)).
  - intros _. vm_compute. discriminate.
Defined.

(** ** Decoding and the serial listener *)

Lemma illegal_chars_iff (c : N) :
  c ∈ ILLEGAL_CHARS ↔ (c < 32 ∨ c = 255 ∨ c = 256)%N.
Proof.
  unfold ILLEGAL_CHARS. rewrite list_elem_of_In, in_app_iff, in_map_iff.
  split.
  - intros [(n & <- & Hn)|Hc].
    + apply in_seq in Hn. left. lia.
    + right. simpl in Hc. intuition.
  - intros [Hc|Hc].
    + left. exists (N.to_nat c). split; [lia|]. apply in_seq. lia.
    + right. simpl. intuition.
Qed.

Lemma legal_byte_iff (b : Byte.byte) :
  Byte.to_N b ∉ ILLEGAL_CHARS ↔ (32 ≤ Byte.to_N b ∧ Byte.to_N b ≠ 255)%N.
Proof.
  rewrite illegal_chars_iff. pose proof (Byte.to_N_bounded b). lia.
Qed.

Ltac utf8_cases :=
  repeat match goal with
    | |- context [(?a <? ?b)%N] => destruct (N.ltb_spec a b)
    | |- context [(?a <=? ?b)%N] => destruct (N.leb_spec a b)
    | |- context [(?a =? ?b)%N] => destruct (N.eqb_spec a b)
    | |- context [match ?l with [] => _ | _ :: _ => _ end] =>
        is_var l; destruct l
    | |- _ => progress cbn [andb negb]
    end.

(** A code point below 128 comes out of the decoder only as a byte of its
    input: on bytes from 32 up it yields code points from 32 up. *)
Lemma utf8_decode_ignore_printable (bs : list N) :
  Forall (fun b => (32 ≤ b)%N) bs →
  Forall (fun c => (32 ≤ c)%N) (utf8_decode_ignore bs).
Proof.
  remember (length bs) as n eqn:Hn. revert bs Hn.
  induction n as [n IH] using lt_wf_ind. intros bs -> Hbs.
  assert (Hrec : ∀ r, (length r < length bs)%nat →
            Forall (fun b => (32 ≤ b)%N) r →
            Forall (fun c => (32 ≤ c)%N) (utf8_decode_ignore r)).
  { intros r Hr. by apply (IH (length r)). }
  clear IH. destruct bs as [|b1 r1]; [constructor|].
  cbn [utf8_decode_ignore].
  unfold second_of_3, second_of_4, is_cont, cp2, cp3, cp4.
  utf8_cases;
    rewrite ?Forall_cons in Hbs;
    repeat match goal with
      | |- Forall _ [] => constructor
      | |- Forall _ (_ :: _) => constructor; [lia|]
      | |- Forall _ (utf8_decode_ignore _) =>
          apply Hrec; [cbn [length]; lia | rewrite ?Forall_cons; tauto]
      end.
Qed.

Lemma lstrip_none (chars : list N) (s : str) :
  Forall (fun c => c ∉ chars) s → lstrip chars s = s.
Proof.
  destruct s as [|c r]; [done|]. intros Hs. apply Forall_cons in Hs as [Hc _].
  simpl. by rewrite bool_decide_false.
Qed.

Lemma strip_none (chars : list N) (s : str) :
  Forall (fun c => c ∉ chars) s → strip chars s = s.
Proof.
  intros Hs. unfold strip. rewrite (lstrip_none _ s Hs).
  rewrite lstrip_none by (by apply Forall_rev). apply rev_involutive.
Qed.

(** What [decode_bytearr] makes of [bytes]. *)
Lemma decode_bytearr_bytes (bs : list Byte.byte) :
  let line := utf8_decode_ignore
                (List.filter (fun c => bool_decide (32 ≤ c ∧ c ≠ 255)%N)
                   (List.map Byte.to_N bs)) in
  decode_bytearr (PyBytes bs) = Ret (Some line) ∧
  Forall (fun c => (32 ≤ c)%N) line.
Proof.
  intros line.
  assert (Hfilter : List.filter (fun c => bool_decide (c ∉ ILLEGAL_CHARS))
                      (List.map Byte.to_N bs)
                    = List.filter (fun c => bool_decide (32 ≤ c ∧ c ≠ 255)%N)
                        (List.map Byte.to_N bs)).
  { apply filter_ext_in. intros c Hc. apply in_map_iff in Hc as (b & <- & _).
    apply bool_decide_ext, legal_byte_iff. }
  assert (Hline : Forall (fun c => (32 ≤ c)%N) line).
  { apply utf8_decode_ignore_printable, Forall_forall. intros c Hc.
    apply list_elem_of_In, filter_In in Hc as [_ Hc].
    apply bool_decide_eq_true in Hc. tauto. }
  split; [|done].
  unfold decode_bytearr. cbn [iter_ints mbind py_bind]. rewrite Hfilter.
  fold line. rewrite strip_none; [done|].
  eapply Forall_impl; [exact Hline|]. intros c Hc. cbv beta in Hc.
  rewrite !elem_of_cons, elem_of_nil. intros [->|[->|[]]]; lia.
Qed.

Lemma printable_line_ok (line : str) :
  line ≠ [] → Forall (fun c => (32 ≤ c)%N) line → line_ok line.
Proof.
  intros Hne Hline. split; [done|].
  split; intros Hc; apply (proj1 (Forall_forall _ _) Hline) in Hc; lia.
Qed.

(** [readline] returns [bytes], or the empty text for a read that timed
    out. *)
Lemma readline_wait_returns reads : ∀ buffer,
  (readline_wait buffer reads).1.1 = PyStr [] ∨
  ∃ bs, (readline_wait buffer reads).1.1 = PyBytes bs.
Proof.
  induction reads as [|data reads IH]; intros buffer; simpl.
  - right. by eexists.
  - destruct data as [|c data]; [by left|].
    destruct (0 <=? find LF (c :: data)); [|apply IH].
    right. by eexists.
Qed.

Lemma readline_returns buffer reads :
  (readline buffer reads).1.1 = PyStr [] ∨
  ∃ bs, (readline buffer reads).1.1 = PyBytes bs.
Proof.
  unfold readline. destruct (0 <=? find LF buffer).
  - right. by eexists.
  - apply readline_wait_returns.
Qed.

Lemma listen_invariant n : ∀ buffer reads queue,
  Forall line_ok queue →
  Forall line_ok (listen n buffer reads queue).1 ∧
  (listen n buffer reads queue).2 = None.
Proof.
  induction n as [|n IH]; intros buffer reads queue Hq; [done|].
  cbn [listen]. destruct reads as [|data reads]; [done|].
  pose proof (readline_returns buffer (data :: reads)) as Hobj.
  destruct (readline buffer (data :: reads)) as [[raw buffer'] reads'].
  cbn [fst] in Hobj. destruct Hobj as [->|[bs ->]].
  - cbn [decode_bytearr]. rewrite bool_decide_true by done. by apply IH.
  - destruct (decode_bytearr_bytes bs) as [-> Hline].
    case_bool_decide as Hne; [by apply IH|].
    apply IH. apply Forall_app. split; [done|].
    apply Forall_singleton. by apply printable_line_ok.
Qed.

(** C8, as the specification states it, fails on the code, which catches
    [AttributeError] where iterating the argument raises [TypeError]: on an
    integer, a float or [None], [decode_bytearr] raises and returns nothing. *)
Theorem decode_bytearr_not_iterable :
  (∀ z, decode_bytearr (PyInt z) = Raise TypeError) ∧
  (∀ f, decode_bytearr (PyFloat f) = Raise TypeError) ∧
  decode_bytearr PyNone = Raise TypeError ∧
  decode_bytearr (PyInt 5) ≠ Ret None.
Proof. repeat split; done. Qed.

(** C9. Decoding [bytes] drops every byte in [0, 31] and the byte 255, then
    decodes the rest as UTF-8 with the ill-formed sequences left out; the text
    it gives has no line feed and no carriage return. Every line that [listen]
    puts on the queue is not empty and has neither, and [listen] is never ended
    by an exception of the decoding. *)
Theorem listener_enqueues_clean_lines :
  (∀ bs : list Byte.byte,
     ∃ line,
       decode_bytearr (PyBytes bs) = Ret (Some line) ∧
       line = utf8_decode_ignore
                (List.filter (fun c => bool_decide (32 ≤ c ∧ c ≠ 255)%N)
                   (List.map Byte.to_N bs)) ∧
       (10%N ∉ line) ∧ (13%N ∉ line)) ∧
  (∀ n buffer reads,
     Forall line_ok (listen n buffer reads []).1 ∧
     (listen n buffer reads []).2 = None).
Proof.
  split.
  - intros bs. destruct (decode_bytearr_bytes bs) as [Hdec Hline].
    eexists. split; [exact Hdec|]. split; [done|].
    split; intros Hc; apply (proj1 (Forall_forall _ _) Hline) in Hc; lia.
  - intros n buffer reads. by apply listen_invariant.
Qed.

(** ** The collector *)

(** C6. With a lookup answered by status 200 and a JSON object whose
    [Exists] is true, [establish_connection] returns that object's [SensorID]
    as it is. With [Exists] false it returns the [SensorID] of the answer to
    the registration request, and nothing when that request fails to connect
    or is not answered in JSON. It returns nothing when the lookup fails to
    connect, when its answer is not JSON, and when its status is not 200. *)
Theorem establish_connection_spec (urljoin : str → str → str)
    (s : session) (host sensor_name sensor_type : str) :
  let uri := urljoin host (u "/sensor/" ++ sensor_type ++ u "/" ++ sensor_name) in
  let result := establish_connection urljoin s host sensor_name sensor_type in
  (∀ response m exists_,
     session_get s uri = Ret response → status_code response = 200 →
     response_json response = Ret (JObj m) → m !! u "Exists" = Some exists_ →
     (truthy exists_ = true → result = Ret (default JNull (m !! u "SensorID"))) ∧
     (truthy exists_ = false →
        (∀ registered m',
           session_put s uri = Ret registered →
           response_json registered = Ret (JObj m') →
           result = Ret (default JNull (m' !! u "SensorID"))) ∧
        (session_put s uri = Raise ConnectionError → result = Ret JNull) ∧
        (∀ registered,
           session_put s uri = Ret registered →
           response_json registered = Raise JSONDecodeError →
           result = Ret JNull))) ∧
  (session_get s uri = Raise ConnectionError → result = Ret JNull) ∧
  (∀ response,
     session_get s uri = Ret response →
     response_json response = Raise JSONDecodeError → result = Ret JNull) ∧
  (∀ response data,
     session_get s uri = Ret response → response_json response = Ret data →
     status_code response ≠ 200 → result = Ret JNull).
Proof.
  intros uri result. subst result. unfold establish_connection. fold uri.
  split; [|split; [|split]].
  - intros response m exists_ Hget Hstatus Hjson Hexists.
    rewrite Hget. cbn [mbind py_bind]. rewrite Hjson. cbn [mbind py_bind].
    rewrite Hstatus. cbn [Z.eqb Pos.eqb negb subscript]. rewrite Hexists.
    cbn [mbind py_bind]. split.
    + intros ->. done.
    + intros ->. split; [|split].
      * intros registered m' Hput Hjson'. rewrite Hput. cbn [mbind py_bind].
        by rewrite Hjson'.
      * by intros ->.
      * intros registered Hput Hjson'. rewrite Hput. cbn [mbind py_bind].
        by rewrite Hjson'.
  - by intros ->.
  - intros response Hget Hjson. rewrite Hget. cbn [mbind py_bind].
    by rewrite Hjson.
  - intros response data Hget Hjson Hstatus. rewrite Hget. cbn [mbind py_bind].
    rewrite Hjson. cbn [mbind py_bind].
    by destruct (Z.eqb_spec (status_code response) 200).
Qed.

(** The lookup that finds the sensor, and the one that registers it. *)
Lemma establish_connection_witness :
  establish_connection sample.urljoin sample.known_sensor
    (u "http://collector") (u "AT1A-7") (u "AT1A") = Ret (JInt 7) ∧
  establish_connection sample.urljoin sample.new_sensor
    (u "http://collector") (u "AT1A-7") (u "AT1A") = Ret (JInt 8).
Proof.
  split.
  - destruct (establish_connection_spec sample.urljoin sample.known_sensor
                (u "http://collector") (u "AT1A-7") (u "AT1A")) as [Hfound _].
    edestruct Hfound as [Hyes _]; [reflexivity..|].
    apply (Hyes eq_refl).
  - destruct (establish_connection_spec sample.urljoin sample.new_sensor
                (u "http://collector") (u "AT1A-7") (u "AT1A")) as [Hfound _].
    edestruct Hfound as [_ Hno]; [reflexivity..|].
    destruct (Hno eq_refl) as [Hreg _].
    apply (Hreg _ _ eq_refl eq_refl).
Defined.

(** ** The meter configuration *)

(** *** The parser *)

(** Text without a per cent sign is left as it is. *)
Lemma interpolate_while_plain (xform : str → str) (map : gmap str str)
    (deeper : str → str → py str) (rest : str) :
  (37%N ∉ rest) →
  ∀ accum, interpolate_while xform map deeper rest None accum = Ret (accum ++ rest).
Proof.
  induction rest as [|c rest IH]; intros Hrest accum; cbn [interpolate_while].
  - by rewrite app_nil_r.
  - apply not_elem_of_cons in Hrest as [Hc Hrest].
    replace (c =? 37)%N with false by (symmetry; apply N.eqb_neq; congruence).
    cbn [negb]. rewrite (IH Hrest). by rewrite <- app_assoc.
Qed.

Lemma before_get_plain (config : ConfigParser) (map : gmap str str) (value : str) :
  (37%N ∉ value) → before_get config map value = Ret value.
Proof.
  intros Hv. unfold before_get, MAX_INTERPOLATION_DEPTH.
  cbn [_interpolate_some]. by rewrite interpolate_while_plain.
Qed.

Lemma lookup_list_to_map_keys (f : str → str) (ks : list str) (k : str) :
  (list_to_map ((fun k => (k, f k)) <$> ks) : gmap str str) !! k
  = if bool_decide (k ∈ ks) then Some (f k) else None.
Proof.
  induction ks as [|k0 ks IH]; cbn [fmap list_fmap list_to_map foldr].
  - by rewrite lookup_empty.
  - destruct (decide (k = k0)) as [->|Hne].
    + rewrite lookup_insert_eq, bool_decide_true; [done|by left].
    + rewrite lookup_insert_ne by done. rewrite IH.
      apply (f_equal (fun b : bool => if b then Some (f k) else None)).
      apply bool_decide_ext. rewrite elem_of_cons. tauto.
Qed.

Lemma options_dom (config : ConfigParser) (sectiondict : list (str * str)) (k : str) :
  k ∈ options config sectiondict ↔ is_Some (_unify_values config sectiondict !! k).
Proof.
  unfold options, _unify_values.
  rewrite <- elem_of_dom, dom_list_to_map_L, elem_of_list_to_set, fmap_app.
  rewrite !elem_of_app, list_elem_of_filter.
  destruct (decide (k ∈ sectiondict.*1)); tauto.
Qed.

(** Where no value holds a per cent sign, [dict(config[name])] is the
    section's own options over the defaults, values as they are. *)
Lemma section_plain (config : ConfigParser) (name : str)
    (sectiondict : list (str * str)) :
  name ≠ DEFAULTSECT →
  _sections config !! name = Some sectiondict →
  (∀ k v, (k, v) ∈ sectiondict ++ _defaults config →
          optionxform config k = k ∧ (37%N ∉ v)) →
  section config name = Ret (_unify_values config sectiondict).
Proof.
  intros Hname Hsec Hplain. unfold section.
  rewrite bool_decide_false by exact Hname. rewrite Hsec. cbv zeta.
  set (d := _unify_values config sectiondict).
  assert (Hitems : ∀ ks, (∀ k, k ∈ ks → k ∈ options config sectiondict) →
            mapM (fun key =>
                    match d !! optionxform config key with
                    | Some value => value ← before_get config d value; Ret (key, value)
                    | None => Raise KeyError
                    end) ks
            = Ret ((fun k => (k, default [] (d !! k))) <$> ks)).
  { induction ks as [|k ks IH]; intros Hks; [reflexivity|].
    cbn [mapM fmap list_fmap].
    destruct (proj1 (options_dom config sectiondict k) (Hks k ltac:(by left)))
      as [v Hv].
    fold d in Hv.
    assert ((k, v) ∈ sectiondict ++ _defaults config) as Hin.
    { by apply elem_of_list_to_map_2. }
    destruct (Hplain k v Hin) as [Hk Hpc].
    rewrite Hk, Hv. rewrite before_get_plain by done.
    cbn [mbind py_bind from_option id].
    rewrite IH by (intros k' Hk'; apply Hks; by right).
    unfold mret, py_ret. cbn [mbind py_bind]. do 3 f_equal. symmetry. exact (f_equal (default []) Hv). }
  rewrite Hitems by done. cbn [mbind py_bind]. f_equal.
  apply map_eq. intros k. rewrite lookup_list_to_map_keys.
  case_bool_decide as Hk.
  - apply options_dom in Hk as [v Hv]. fold d in Hv.
    transitivity (Some v); [|symmetry; exact Hv].
    exact (f_equal (fun o => Some (default [] o)) Hv).
  - symmetry. apply eq_None_not_Some. intros Hsome. apply Hk.
    by apply options_dom.
Qed.

(** The three sections of [read_config] are not the default section. *)
Lemma section_names :
  u "Sensor" ≠ DEFAULTSECT ∧ u "crosscouplings" ≠ DEFAULTSECT ∧
  u "Platform" ≠ DEFAULTSECT.
Proof. repeat split; intros Heq; vm_compute in Heq; discriminate Heq. Qed.

Lemma section_missing (config : ConfigParser) (name : str) :
  name ≠ DEFAULTSECT → _sections config !! name = None →
  section config name = Raise KeyError.
Proof.
  intros Hname Hmissing. unfold section.
  rewrite bool_decide_false by exact Hname. by rewrite Hmissing.
Qed.

(** Interpolation on the parser's other kinds of value, and the default
    section. *)
Example section_resolves_references :
  section referring_config (u "Sensor")
  = Ret (list_to_map [(u "g0", u "10000.5"); (u "gravcal", u "10000.5");
                      (u "meter", u "50% mGal"); (u "unit", u "mGal")]).
Proof. vm_compute. reflexivity. Qed.

Example section_default :
  section referring_config DEFAULTSECT = Ret (list_to_map [(u "unit", u "mGal")]) ∧
  section referring_config (u "Platform") = Raise KeyError.
Proof. split; vm_compute; reflexivity. Qed.

Example before_get_errors :
  before_get referring_config ∅ (u "100%") = Raise InterpolationSyntaxError ∧
  before_get referring_config ∅ (u "%(g0") = Raise InterpolationSyntaxError ∧
  before_get referring_config ∅ (u "%()s") = Raise InterpolationSyntaxError ∧
  before_get referring_config ∅ (u "%(g0)d") = Raise InterpolationSyntaxError ∧
  before_get referring_config ∅ (u "%(g0)s") = Raise InterpolationMissingOptionError ∧
  before_get referring_config (<[u "g0" := u "%(g0)s"]> ∅) (u "%(g0)s")
  = Raise InterpolationDepthError.
Proof. repeat split; vm_compute; reflexivity. Qed.

(** *** [read_config] *)

Section ConfigFacts.
Context `{PyRuntime}.

(** The dictionary comprehension that ends [read_config]: each key of the
    result is a lowered key of [merged] on the white list, and its value the
    cast of that key's value. *)
Lemma comprehension_lookup (merged : gmap str str) (k : str) (v : value) :
  (list_to_map
     ((fun kv => (lower kv.1, safe_cast kv.2)) <$>
      filter (fun kv => lower kv.1 ∈ set_map (D:=gset str) lower valid_fields)
        (map_to_list merged)) : gmap str value) !! k = Some v →
  ∃ k0 v0, merged !! k0 = Some v0 ∧ k = lower k0 ∧ v = safe_cast v0 ∧
    lower k0 ∈ set_map (D:=gset str) lower valid_fields.
Proof.
  intros Hk. apply elem_of_list_to_map_2 in Hk.
  apply list_elem_of_fmap in Hk as ([k0 v0] & Heq & Hin).
  apply list_elem_of_filter in Hin as [Hvalid Hin].
  apply elem_of_map_to_list in Hin. injection Heq as -> ->.
  exists k0, v0. split; [exact Hin|]. split; [reflexivity|].
  split; [reflexivity|exact Hvalid].
Qed.

Lemma comprehension_covers (merged : gmap str str) (k0 v0 : str) :
  merged !! k0 = Some v0 →
  lower k0 ∈ set_map (D:=gset str) lower valid_fields →
  (lower k0, safe_cast v0) ∈
    ((fun kv => (lower kv.1, safe_cast kv.2)) <$>
     filter (fun kv => lower kv.1 ∈ set_map (D:=gset str) lower valid_fields)
       (map_to_list merged)).
Proof.
  intros Hk Hvalid. apply list_elem_of_fmap. exists (k0, v0).
  split; [reflexivity|].
  apply list_elem_of_filter. split; [exact Hvalid|].
  apply elem_of_map_to_list. exact Hk.
Qed.

Lemma read_config_sections (path : config_file) (config : ConfigParser)
    (sensor_fld xcoupling_fld platform_fld : gmap str str) :
  path_exists path = true → config_read path = Ret config →
  section config (u "Sensor") = Ret sensor_fld →
  section config (u "crosscouplings") = Ret xcoupling_fld →
  section config (u "Platform") = Ret platform_fld →
  read_config path
  = Ret (list_to_map
           ((fun kv => (lower kv.1, safe_cast kv.2)) <$>
            filter (fun kv => lower kv.1 ∈ set_map (D:=gset str) lower valid_fields)
              (map_to_list (platform_fld ∪ xcoupling_fld ∪ sensor_fld)))).
Proof.
  intros Hex Hread Hs Hc Hp. unfold read_config.
  rewrite Hex, Hread. cbn [negb]. rewrite Hs, Hc, Hp. reflexivity.
Qed.

(** The result on sections that were read, every key of theirs being on the
    white list. *)
Lemma read_config_merged (path : config_file) (config : ConfigParser)
    (sensor_fld xcoupling_fld platform_fld : gmap str str) :
  path_exists path = true → config_read path = Ret config →
  section config (u "Sensor") = Ret sensor_fld →
  section config (u "crosscouplings") = Ret xcoupling_fld →
  section config (u "Platform") = Ret platform_fld →
  let merged := platform_fld ∪ xcoupling_fld ∪ sensor_fld in
  (∀ k, k ∈ dom merged → lower k ∈ set_map (D:=gset str) lower valid_fields) →
  ∃ result,
    read_config path = Ret result ∧
    (∀ k, k ∈ dom result ↔ ∃ k0, k0 ∈ dom merged ∧ k = lower k0) ∧
    (∀ k v, result !! k = Some v →
       ∃ k0 v0, merged !! k0 = Some v0 ∧ k = lower k0 ∧
         match py_float v0 with
         | Some f => v = VFloat f
         | None => v = VStr v0
         end) ∧
    (∀ k0 v0,
       merged !! k0 = Some v0 →
       (∀ k1, k1 ∈ dom merged → lower k1 = lower k0 → k1 = k0) →
       result !! lower k0
       = Some match py_float v0 with
              | Some f => VFloat f
              | None => VStr v0
              end).
Proof.
  intros Hex Hread Hs Hc Hp merged Hwhite.
  rewrite (read_config_sections _ _ _ _ _ Hex Hread Hs Hc Hp). fold merged.
  eexists. split; [reflexivity|]. split; [|split].
  - intros k. rewrite elem_of_dom. split.
    + intros [v Hv]. apply comprehension_lookup in Hv as (k0 & v0 & Hk0 & -> & _).
      exists k0. split; [|reflexivity]. apply elem_of_dom. eexists. exact Hk0.
    + intros (k0 & Hk0 & ->). apply elem_of_dom in Hk0 as [v0 Hk0].
      apply not_eq_None_Some. intros Hnone.
      apply not_elem_of_list_to_map_2 in Hnone. apply Hnone.
      apply list_elem_of_fmap. exists (lower k0, safe_cast v0).
      split; [reflexivity|].
      apply comprehension_covers; [exact Hk0|].
      apply Hwhite, elem_of_dom. eexists. exact Hk0.
  - intros k v Hv. apply comprehension_lookup in Hv as (k0 & v0 & Hk0 & -> & -> & _).
    exists k0, v0. split; [exact Hk0|]. split; [reflexivity|].
    unfold safe_cast. destruct (py_float v0); reflexivity.
  - intros k0 v0 Hk0 Hinj.
    change (match py_float v0 with Some f => VFloat f | None => VStr v0 end)
      with (safe_cast v0).
    apply elem_of_list_to_map_1'.
    + intros y Hy. apply list_elem_of_fmap in Hy as ([k1 v1] & Heq & Hin).
      apply list_elem_of_filter in Hin as [_ Hin].
      apply elem_of_map_to_list in Hin. injection Heq as Hl ->.
      cbn [fst snd] in *.
      assert (k1 = k0) as ->.
      { apply Hinj; [|symmetry; exact Hl]. apply elem_of_dom. eexists. exact Hin. }
      congruence.
    + apply comprehension_covers; [exact Hk0|].
      apply Hwhite, elem_of_dom. eexists. exact Hk0.
Qed.

End ConfigFacts.

(** C7, as the specification states it, fails: on a file that exists and has
    its three sections, the only option being [Meter = 100%] of the white
    list, [read_config] returns no mapping; the parser's interpolation of the
    value raises [InterpolationSyntaxError]. *)
Lemma read_config_lone_percent :
  path_exists percent_ini = true ∧
  lower (u "meter") ∈ set_map (D:=gset str) lower valid_fields ∧
  read_config (H:=sample.runtime) percent_ini = Raise InterpolationSyntaxError ∧
  ¬ ∃ result, read_config (H:=sample.runtime) percent_ini = Ret result.
Proof.
  split; [reflexivity|]. split; [run|].
  assert (Hraise : read_config (H:=sample.runtime) percent_ini
                   = Raise InterpolationSyntaxError) by (vm_compute; reflexivity).
  split; [exact Hraise|]. intros [result Hret]. rewrite Hraise in Hret.
  discriminate Hret.
Qed.

(** C7 (as amended). [read_config] fails with [FileNotFoundError] when the
    path does not exist. On a file that exists and has its three sections,
    with no per cent sign in any value of theirs or of the defaults, option
    names as the parser stores them, and every key of the sections on the
    white list, it returns a mapping whose keys are the lowered keys of the
    merged sections; a value that [float] accepts is there as that
    floating-point number, any other value as its text. *)
Theorem read_config_spec `{PyRuntime} (path : config_file) :
  (path_exists path = false → read_config path = Raise FileNotFoundError) ∧
  (∀ config sensor xcoupling platform,
     path_exists path = true → config_read path = Ret config →
     _sections config !! u "Sensor" = Some sensor →
     _sections config !! u "crosscouplings" = Some xcoupling →
     _sections config !! u "Platform" = Some platform →
     (∀ k v, (k, v) ∈ sensor ++ xcoupling ++ platform ++ _defaults config →
             optionxform config k = k ∧ (37%N ∉ v)) →
     let merged := _unify_values config platform ∪ _unify_values config xcoupling
                   ∪ _unify_values config sensor in
     (∀ k, k ∈ dom merged → lower k ∈ set_map (D:=gset str) lower valid_fields) →
     ∃ result,
       read_config path = Ret result ∧
       (∀ k, k ∈ dom result ↔ ∃ k0, k0 ∈ dom merged ∧ k = lower k0) ∧
       (∀ k v, result !! k = Some v →
          ∃ k0 v0, merged !! k0 = Some v0 ∧ k = lower k0 ∧
            match py_float v0 with
            | Some f => v = VFloat f
            | None => v = VStr v0
            end) ∧
       (∀ k0 v0,
          merged !! k0 = Some v0 →
          (∀ k1, k1 ∈ dom merged → lower k1 = lower k0 → k1 = k0) →
          result !! lower k0
          = Some match py_float v0 with
                 | Some f => VFloat f
                 | None => VStr v0
                 end)).
Proof.
  split.
  { intros Hex. unfold read_config. rewrite Hex. reflexivity. }
  intros config sensor xcoupling platform Hex Hread Hs Hc Hp Hplain.
  apply (read_config_merged path config _ _ _ Hex Hread).
  - apply (section_plain _ _ _ (proj1 section_names) Hs).
    intros k v Hin. apply Hplain. rewrite !elem_of_app in *. tauto.
  - apply (section_plain _ _ _ (proj1 (proj2 section_names)) Hc).
    intros k v Hin. apply Hplain. rewrite !elem_of_app in *. tauto.
  - apply (section_plain _ _ _ (proj2 (proj2 section_names)) Hp).
    intros k v Hin. apply Hplain. rewrite !elem_of_app in *. tauto.
Qed.

(** A path that does not exist, and the sample file, whose [g0] the
    [crosscouplings] section overrides. *)
Lemma read_config_witness :
  read_config (H:=sample.runtime)
    {| path_exists := false; config_read := Raise FileNotFoundError |}
  = Raise FileNotFoundError ∧
  ∃ result,
    read_config (H:=sample.runtime) sample.meter_ini = Ret result ∧
    result !! u "g0" = Some (VFloat 1%float) ∧
    result !! u "meter" = Some (VStr (u "AT1M-4")).
Proof.
  split.
  - by apply (read_config_spec (H:=sample.runtime)).
  - destruct (read_config_spec (H:=sample.runtime) sample.meter_ini) as [_ Hok].
    destruct (Hok sample.meter_config sample.meter_sensor
                sample.meter_crosscouplings sample.meter_platform
                eq_refl eq_refl ltac:(run) ltac:(run) ltac:(run))
      as (result & Hres & _ & _ & Hval).
    { intros k v.
      apply (proj1 (Forall_forall
               (fun kv : str * str =>
                  optionxform sample.meter_config kv.1 = kv.1 ∧ (37%N ∉ kv.2))
               (sample.meter_sensor ++ sample.meter_crosscouplings
                ++ sample.meter_platform ++ _defaults sample.meter_config))
             ltac:(apply (bool_decide_unpack _); vm_compute; exact I) (k, v)). }
    { apply (bool_decide_unpack
               (set_Forall
                  (fun k => lower k ∈ set_map (D:=gset str) lower valid_fields)
                  (dom (_unify_values sample.meter_config sample.meter_platform
                        ∪ _unify_values sample.meter_config sample.meter_crosscouplings
                        ∪ _unify_values sample.meter_config sample.meter_sensor)))).
      vm_compute. exact I. }
    exists result. split; [exact Hres|]. split.
    + refine (eq_trans (Hval (u "g0") (u "1") _ _) _); [run| |run].
      apply (bool_decide_unpack
               (set_Forall (fun k1 => lower k1 = lower (u "g0") → k1 = u "g0")
                  (dom (_unify_values sample.meter_config sample.meter_platform
                        ∪ _unify_values sample.meter_config sample.meter_crosscouplings
                        ∪ _unify_values sample.meter_config sample.meter_sensor)))).
      vm_compute. exact I.
    + refine (eq_trans (Hval (u "meter") (u "AT1M-4") _ _) _); [run| |run].
      apply (bool_decide_unpack
               (set_Forall (fun k1 => lower k1 = lower (u "meter") → k1 = u "meter")
                  (dom (_unify_values sample.meter_config sample.meter_platform
                        ∪ _unify_values sample.meter_config sample.meter_crosscouplings
                        ∪ _unify_values sample.meter_config sample.meter_sensor)))).
      vm_compute. exact I.
Defined.

(** ** The HTTP sender *)

Section SenderFacts.
Context `{PyRuntime}.
Variable sensor_type : str.

Lemma acknowledged_iff (reply : py response) :
  acknowledged reply = true ↔ replied_ok reply.
Proof.
  unfold acknowledged, _send_line, replied_ok.
  destruct reply as [response|e]; cbn [mbind py_bind].
  - destruct (response_json response) as [result|e] eqn:Hjson.
    + destruct result as [| | | | | |m]; cbn [get_default];
        try (split; [discriminate|intros (r & m & [= <-] & Hm & _); congruence]).
      destruct (m !! u "Status") as [status|] eqn:Hstatus;
        cbn [from_option id].
      * destruct status as [| | | |s| |];
          try (split; [discriminate|
                       intros (r & m' & [= <-] & Hm & Hs); congruence]).
        rewrite bool_decide_eq_true. split.
        -- intros ->. exists response, m. by split.
        -- intros (r & m' & [= <-] & Hm & Hs). congruence.
      * split; [intros Hok; vm_compute in Hok; discriminate Hok|].
        intros (r & m' & [= <-] & Hm & Hs). congruence.
    + split.
      * destruct e; intros Hok; vm_compute in Hok; discriminate Hok.
      * intros (r & m & [= <-] & Hm & _). congruence.
  - split.
    + destruct e; intros Hok; vm_compute in Hok; discriminate Hok.
    + intros (r & m & Hr & _). discriminate Hr.
Qed.

Lemma run_turn_idle (b : list (gmap str value)) (t : tick) :
  reading_of sensor_type t = None →
  batch_queue (run_turn sensor_type b t) = b ∧
  posted (run_turn sensor_type b t) = None.
Proof.
  unfold reading_of, run_turn. destruct (queue_get t) as [line|]; [|done].
  by destruct (get_extractor sensor_type line fields) as [[data|]|e].
Qed.

Lemma run_turn_below (b : list (gmap str value)) (t : tick) (data : gmap str value) :
  reading_of sensor_type t = Some data →
  (length (data :: b) < batch)%nat →
  run_turn sensor_type b t
  = {| batch_queue := data :: b; posted := None; raised := None |}.
Proof.
  unfold reading_of, run_turn. destruct (queue_get t) as [line|]; [|done].
  destruct (get_extractor sensor_type line fields) as [[data'|]|e]; try done.
  intros [= ->] Hlen. apply Nat.ltb_lt in Hlen. by rewrite Hlen.
Qed.

Lemma run_turn_post (b : list (gmap str value)) (t : tick) (data : gmap str value) :
  reading_of sensor_type t = Some data →
  (batch ≤ length (data :: b))%nat →
  posted (run_turn sensor_type b t)
  = Some {| payload_data := data :: b; payload_length := length (data :: b) |} ∧
  batch_queue (run_turn sensor_type b t)
  = (if acknowledged (post_reply t) then [] else data :: b) ∧
  (acknowledged (post_reply t) = true → raised (run_turn sensor_type b t) = None).
Proof.
  unfold reading_of, run_turn, acknowledged.
  destruct (queue_get t) as [line|]; [|done].
  destruct (get_extractor sensor_type line fields) as [[data'|]|e]; try done.
  intros [= ->] Hlen. apply Nat.ltb_ge in Hlen. rewrite Hlen.
  destruct (_send_line (post_reply t)) as [result|e].
  - destruct (get_default result (u "Status") (JStr (u "FAIL")))
      as [status|e]; [|done].
    destruct status; try done. by case_bool_decide.
  - by destruct e.
Qed.



End SenderFacts.


Section ResendFacts.
Context `{PyRuntime}.
Variable sensor_type : str.






End ResendFacts.





(** Eleven readings and a collector that refuses: the tenth reading posts ten,
    the eleventh posts all eleven, and the batch is kept. *)
Example run_refused :
  let '(sent, b, e) := run (H:=sample.runtime) (u "AT1A") sample.eleven_refused in
  payload_length <$> sent = [10; 11]%nat ∧ length b = 11%nat ∧ e = None.
Proof. vm_compute. by repeat split. Qed.

(** ** The model of the decoder on bytes of each kind *)

Example utf8_well_formed :
  utf8_decode_ignore [65; 195; 169; 226; 130; 172; 240; 159; 152; 128]%N
  = [65; 233; 8364; 128512]%N.
Proof. reflexivity. Qed.

Example utf8_ill_formed :
  utf8_decode_ignore [226; 65; 66]%N = [65; 66]%N ∧
  utf8_decode_ignore [240; 159; 65]%N = [65]%N ∧
  utf8_decode_ignore [237; 160; 128; 65]%N = [65]%N ∧
  utf8_decode_ignore [244; 144; 128; 128; 65]%N = [65]%N ∧
  utf8_decode_ignore [192; 138; 65]%N = [65]%N ∧
  utf8_decode_ignore [226; 130]%N = [] ∧
  utf8_decode_ignore [195]%N = [].
Proof. by repeat split. Qed.

Example listen_serial_reads :
  listen 10 [] sample.serial_reads [] = ([u "$UW,1"; u "$UW,2"], None).
Proof. vm_compute. reflexivity. Qed.

(** ** More on field extraction *)

Lemma airborne_names_lower : Forall (fun f => lower f = f) _airborne_fieldmap.
Proof. vm_compute. repeat constructor. Qed.

Lemma airborne_names_nodup : NoDup (lower <$> _airborne_fieldmap).
Proof. apply (bool_decide_unpack _). vm_compute. exact I. Qed.

Section MoreExtraction.
Context `{PyRuntime}.

(** The loop looks at the wanted fields only through membership. *)
Lemma fields_loop_ext key fieldmap (fields1 fields2 : list str) :
  (∀ k, k ∈ fields1 ↔ k ∈ fields2) →
  ∀ i data e,
    fields_loop key i fieldmap data fields1 e
    = fields_loop key i fieldmap data fields2 e.
Proof.
  intros Hsame. induction fieldmap as [|f rest IH]; intros i data e; [done|].
  cbn [fields_loop].
  rewrite (bool_decide_ext (lower f ∈ fields1) (lower f ∈ fields2)) by apply Hsame.
  destruct (bool_decide (lower f ∈ fields2)); [|apply IH].
  destruct (getitem data i) as [tok|ex]; cbn [mbind py_bind]; [|done].
  destruct (apply_cast _ tok) as [v|ex]; cbn [mbind py_bind mret py_ret].
  - apply IH.
  - destruct ex; try done; apply IH.
Qed.

(** X1. Both extractors take the wanted fields as a set: two lists with the
    same members, in any order and with any repeats, give the same result on
    every line. *)
Theorem wanted_fields_as_set (line : str) (fields1 fields2 : list str) :
  (∀ k, k ∈ fields1 ↔ k ∈ fields2) →
  _extract_marine_fields line fields1 = _extract_marine_fields line fields2 ∧
  _extract_airborne_fields line fields1 = _extract_airborne_fields line fields2.
Proof.
  intros Hsame. split.
  - unfold _extract_marine_fields.
    destruct (negb _); [done|]. by apply fields_loop_ext.
  - destruct (decide (length (split 44 line) = 13%nat)) as [Hlen|Hlen].
    + destruct (airborne_tokens _ Hlen) as (rest & t11 & t12 & Ht & Hrest & _).
      rewrite !(extract_airborne_match _ _ _ _ _ Ht Hrest).
      by rewrite (fields_loop_ext lower _ fields1 fields2 Hsame).
    + by rewrite !extract_airborne_mismatch.
Qed.
(** When airborne extraction raises. *)
Lemma airborne_raises (line : str) (fields : list str) (e : exn) :
  _extract_airborne_fields line fields = Raise e ↔
  e = OverflowError ∧
  ∃ t11 t12 gpsweek gpssecond,
    length (split 44 line) = 13%nat ∧
    split 44 line !! 11%nat = Some t11 ∧ split 44 line !! 12%nat = Some t12 ∧
    py_int t11 = Some gpsweek ∧ py_float t12 = Some gpssecond ∧
    float_of_int gpsweek = Raise OverflowError.
Proof.
  destruct (decide (length (split 44 line) = 13%nat)) as [Hlen|Hlen].
  2: { rewrite extract_airborne_mismatch by done. split; [discriminate|].
       intros (_ & t11 & t12 & w & sec & Hlen' & _). done. }
  destruct (airborne_tokens _ Hlen) as (rest & t11 & t12 & Ht & Hrest & H11 & H12).
  rewrite (extract_airborne_match _ _ _ _ _ Ht Hrest).
  destruct (fields_loop_spec lower _airborne_fieldmap 0 rest fields ∅)
    as (d & Hd & _).
  { change (length _airborne_fieldmap) with 11%nat. lia. }
  rewrite Hd. split.
  - destruct (py_float t12) as [sec|] eqn:Hf; [|discriminate].
    destruct (py_int t11) as [w|] eqn:Hi; [|discriminate].
    rewrite convert_gps_time_unfold.
    destruct (float_of_int w) as [fw|e'] eqn:Hw; cbv beta iota;
      [discriminate|].
    intros [= <-]. pose proof (float_of_int_raise _ _ Hw) as ->.
    split; [done|]. by exists t11, t12, w, sec.
  - intros (-> & t11' & t12' & w & sec & _ & H11' & H12' & Hi & Hf & Hw).
    assert (t11' = t11) as -> by congruence.
    assert (t12' = t12) as -> by congruence.
    rewrite Hf, Hi, convert_gps_time_unfold, Hw. done.
Qed.

(** X2. Airborne extraction raises only [OverflowError], and does so exactly
    on a line of 13 tokens whose trailing pair parses and whose week is beyond
    the binary64 range: the [try] statement around the GPS conversion has no
    handler for it. *)
Theorem airborne_raises_iff (line : str) (fields : list str) (e : exn) :
  _extract_airborne_fields line fields = Raise e ↔
  e = OverflowError ∧
  ∃ t11 t12 gpsweek gpssecond,
    length (split 44 line) = 13%nat ∧
    split 44 line !! 11%nat = Some t11 ∧ split 44 line !! 12%nat = Some t12 ∧
    py_int t11 = Some gpsweek ∧ py_float t12 = Some gpssecond ∧
    float_of_int gpsweek = Raise OverflowError.
Proof. apply airborne_raises. Qed.

(** The keys and values of the mapping airborne extraction returns. *)
Lemma airborne_mapping (line : str) (fields : list str)
    (extracted : gmap str value) :
  _extract_airborne_fields line fields = Ret (Some extracted) →
  (∀ k, k ∈ dom extracted ↔
        (k ∈ _airborne_fieldmap ∧ k ∈ fields) ∨ k = u "datetime") ∧
  (∀ i k tok,
     _airborne_fieldmap !! i = Some k → k ∈ fields →
     split 44 line !! i = Some tok →
     extracted !! k = Some (cast_by_rule k tok)).
Proof.
  intros Hret.
  destruct (decide (length (split 44 line) = 13%nat)) as [Hlen|Hlen].
  2: { by rewrite extract_airborne_mismatch in Hret. }
  destruct (airborne_tokens _ Hlen) as (rest & t11 & t12 & Ht & Hrest & _).
  rewrite (extract_airborne_match _ _ _ _ _ Ht Hrest) in Hret.
  destruct (py_float t12) as [sec|]; [|discriminate].
  destruct (py_int t11) as [w|]; [|discriminate].
  destruct (convert_gps_time w sec) as [dt|e]; [|discriminate].
  destruct (fields_loop_spec lower _airborne_fieldmap 0 rest fields ∅)
    as (d & Hd & Hother & Hin).
  { change (length _airborne_fieldmap) with 11%nat. lia. }
  rewrite Hd in Hret. injection Hret as <-.
  assert (Hlow : ∀ f, f ∈ _airborne_fieldmap → lower f = f).
  { apply Forall_forall, airborne_names_lower. }
  assert (Hnodt : u "datetime" ∉ _airborne_fieldmap).
  { apply (bool_decide_unpack _). vm_compute. exact I. }
  assert (Hval : ∀ i k tok, _airborne_fieldmap !! i = Some k → k ∈ fields →
            split 44 line !! i = Some tok → d !! k = Some (cast_by_rule k tok)).
  { intros i k tok Hi Hk Htok.
    assert (lower k = k) as Hlk by (apply Hlow; by eapply list_elem_of_lookup_2).
    rewrite <- (stored_by_rule k tok Hlk). rewrite <- Hlk at 1.
    apply (Hin airborne_names_nodup i k tok Hi); [by rewrite Hlk|].
    rewrite Ht, lookup_app_l in Htok; [done|].
    apply lookup_lt_Some in Hi.
    change (length _airborne_fieldmap) with 11%nat in Hi. lia. }
  split.
  - intros k. rewrite dom_insert_L, elem_of_union, elem_of_singleton, elem_of_dom.
    split.
    + intros [->|[v Hv]]; [by right|].
      destruct (decide (k ∈ _airborne_fieldmap ∧ k ∈ fields)) as [|Hno]; [by left|].
      rewrite Hother, lookup_empty in Hv; [done|].
      intros f Hf Hw <-. apply Hno. split; [by rewrite (Hlow f Hf)|done].
    + intros [[Hk Hw]| ->]; [right|by left].
      apply list_elem_of_lookup_1 in Hk as [i Hi].
      destruct (lookup_lt_is_Some_2 (split 44 line) i) as [tok Htok].
      { apply lookup_lt_Some in Hi.
        change (length _airborne_fieldmap) with 11%nat in Hi. lia. }
      rewrite (Hval i k tok Hi Hw Htok). by eexists.
  - intros i k tok Hi Hk Htok. rewrite lookup_insert_ne.
    + by apply (Hval i k tok).
    + intros <-. apply Hnodt. by eapply list_elem_of_lookup_2.
Qed.

(** X3. The mapping airborne extraction returns: its keys are the wanted names
    of the airborne layout and [datetime], which is there whether wanted or
    not; under a wanted name is the token at the field's position cast by the
    per-field rule. *)
Theorem airborne_fields_spec (line : str) (fields : list str)
    (extracted : gmap str value) :
  _extract_airborne_fields line fields = Ret (Some extracted) →
  (∀ k, k ∈ dom extracted ↔
        (k ∈ _airborne_fieldmap ∧ k ∈ fields) ∨ k = u "datetime") ∧
  (∀ i k tok,
     _airborne_fieldmap !! i = Some k → k ∈ fields →
     split 44 line !! i = Some tok →
     extracted !! k = Some (cast_by_rule k tok)).
Proof. apply airborne_mapping. Qed.

(** The keys of the mapping marine extraction returns. *)
Lemma marine_mapping (line : str) (fields : list str)
    (extracted : gmap str value) :
  _extract_marine_fields line fields = Ret (Some extracted) →
  ∀ k, k ∈ dom extracted ↔ k ∈ _marine_fieldmap ∧ k ∈ fields.
Proof.
  intros Hret.
  destruct (decide (length (split 44 line) = 19%nat)) as [Hlen|Hlen].
  2: { by rewrite extract_marine_mismatch in Hret. }
  rewrite (extract_marine_match _ _ Hlen) in Hret.
  destruct (fields_loop_spec id _marine_fieldmap 0 (split 44 line) fields ∅)
    as (d & Hd & Hother & Hin).
  { change (length _marine_fieldmap) with 19%nat. lia. }
  rewrite Hd in Hret. injection Hret as <-.
  assert (Hlow : ∀ f, f ∈ _marine_fieldmap → lower f = f).
  { apply Forall_forall, marine_names_lower. }
  intros k. rewrite elem_of_dom. split.
  - intros [v Hv].
    destruct (decide (k ∈ _marine_fieldmap ∧ k ∈ fields)) as [|Hno]; [done|].
    rewrite Hother, lookup_empty in Hv; [done|].
    intros f Hf Hw <-. apply Hno. split; [done|]. by rewrite <- (Hlow f Hf).
  - intros [Hk Hw]. apply list_elem_of_lookup_1 in Hk as [i Hi].
    destruct (lookup_lt_is_Some_2 (split 44 line) i) as [tok Htok].
    { apply lookup_lt_Some in Hi.
      change (length _marine_fieldmap) with 19%nat in Hi. lia. }
    exists (stored k tok).
    apply (Hin ltac:(rewrite list_fmap_id; apply marine_names_nodup) i k tok Hi);
      [|done].
    rewrite (Hlow k); [done|]. by eapply list_elem_of_lookup_2.
Qed.

(** X4. Every reading the sender puts in a batch has exactly the ten keys of
    [HTTPSender.fields], whichever extractor the sensor type selects. *)
Theorem reading_keys (sensor_type : str) (t : tick) (data : gmap str value) :
  reading_of sensor_type t = Some data →
  ∀ k, k ∈ dom data ↔ k ∈ client.fields.
Proof.
  unfold reading_of. destruct (queue_get t) as [line|]; [|done].
  destruct (get_extractor sensor_type line client.fields) as [[d|]|e] eqn:Hret;
    try done.
  intros [= ->] k. unfold get_extractor in Hret.
  assert (Hm : ∀ k, k ∈ client.fields → k ∈ _marine_fieldmap).
  { apply Forall_forall, (bool_decide_unpack _). vm_compute. exact I. }
  assert (Ha : ∀ k, k ∈ client.fields → k ∈ _airborne_fieldmap ∨ k = u "datetime").
  { apply Forall_forall, (bool_decide_unpack _). vm_compute. exact I. }
  assert (Hdt : u "datetime" ∈ client.fields).
  { apply (bool_decide_unpack _). vm_compute. exact I. }
  destruct (bool_decide (upper sensor_type = u "AT1M")).
  - rewrite (marine_mapping _ _ _ Hret). split; [tauto|]. intros Hk.
    split; [by apply Hm|done].
  - destruct (airborne_mapping _ _ _ Hret) as [Hdom _]. rewrite Hdom.
    split; [intros [[_ ?]| ->]; done|].
    intros Hk. destruct (Ha k Hk); [left|right]; done.
Qed.

(** X5. No line is taken by both extractors: what one turns into a mapping the
    other returns no result for. *)
Theorem extractors_exclusive (line : str) (fields1 fields2 : list str)
    (extracted : gmap str value) :
  (_extract_marine_fields line fields1 = Ret (Some extracted) →
   _extract_airborne_fields line fields2 = Ret None) ∧
  (_extract_airborne_fields line fields1 = Ret (Some extracted) →
   _extract_marine_fields line fields2 = Ret None).
Proof.
  split; intros Hret.
  - apply extract_airborne_mismatch. intros Hlen.
    rewrite extract_marine_mismatch in Hret; [done|lia].
  - apply extract_marine_mismatch. intros Hlen.
    rewrite extract_airborne_mismatch in Hret; [done|lia].
Qed.

(** X6. The sensor type selects the marine extractor in any letter case of
    ["AT1M"], and the airborne one otherwise. *)
Theorem get_extractor_case (sensor_type : str) :
  (lower sensor_type = u "at1m" → get_extractor sensor_type = _extract_marine_fields) ∧
  (lower sensor_type ≠ u "at1m" → get_extractor sensor_type = _extract_airborne_fields).
Proof.
  assert (Hletter : ∀ c hi, (65 ≤ hi ≤ 90)%N →
            upper_char c = hi ↔ lower_char c = (hi + 32)%N).
  { intros c hi Hhi. unfold upper_char, lower_char.
    destruct (N.leb_spec 97 c), (N.leb_spec c 122), (N.leb_spec 65 c),
      (N.leb_spec c 90); cbn [andb]; lia. }
  assert (Hdigit : ∀ c d, (d < 65)%N → upper_char c = d ↔ lower_char c = d).
  { intros c d Hd. unfold upper_char, lower_char.
    destruct (N.leb_spec 97 c), (N.leb_spec c 122), (N.leb_spec 65 c),
      (N.leb_spec c 90); cbn [andb]; lia. }
  assert (Hiff : upper sensor_type = u "AT1M" ↔ lower sensor_type = u "at1m").
  { destruct sensor_type as [|c1 [|c2 [|c3 [|c4 [|c5 r]]]]];
      try (split; discriminate).
    change (upper [c1; c2; c3; c4])
      with [upper_char c1; upper_char c2; upper_char c3; upper_char c4].
    change (lower [c1; c2; c3; c4])
      with [lower_char c1; lower_char c2; lower_char c3; lower_char c4].
    change (u "AT1M") with [65; 84; 49; 77]%N.
    change (u "at1m") with [97; 116; 49; 109]%N.
    pose proof (Hletter c1 65%N ltac:(lia)) as L1.
    pose proof (Hletter c2 84%N ltac:(lia)) as L2.
    pose proof (Hdigit c3 49%N ltac:(lia)) as L3.
    pose proof (Hletter c4 77%N ltac:(lia)) as L4.
    cbn in L1, L2, L4.
    split; intros [= E1 E2 E3 E4]; repeat f_equal; tauto. }
  unfold get_extractor. split; intros Hs.
  - by rewrite bool_decide_true by (by apply Hiff).
  - by rewrite bool_decide_false by (by rewrite Hiff).
Qed.

End MoreExtraction.

Lemma wanted_fields_as_set_witness :
  _extract_marine_fields (H:=sample.runtime) sample.marine_line
    [u "beam"; u "gravity"; u "beam"]
  = _extract_marine_fields (H:=sample.runtime) sample.marine_line
      [u "gravity"; u "beam"].
Proof.
  apply (wanted_fields_as_set (H:=sample.runtime)).
  intros k. rewrite !elem_of_cons, elem_of_nil. tauto.
Defined.

Lemma airborne_fields_witness :
  airborne_reading !! u "latitude" = Some (VFloat 39.9092%float) ∧
  airborne_reading !! u "status" = None.
Proof.
  destruct (airborne_fields_spec (H:=sample.runtime) sample.airborne_line
              client.fields airborne_reading ltac:(run)) as [Hdom Hval].
  split.
  - rewrite (Hval 9%nat (u "latitude") (u "39.9092")) by run. run.
  - apply not_elem_of_dom. rewrite Hdom. intros [[_ Hw]|Hk].
    + revert Hw. apply (bool_decide_unpack _). vm_compute. exact I.
    + revert Hk. apply (bool_decide_unpack _). vm_compute. exact I.
Defined.

Lemma reading_keys_witness :
  u "gravity" ∈ dom airborne_reading ∧ u "header" ∉ dom airborne_reading.
Proof.
  pose proof (reading_keys (H:=sample.runtime) (u "AT1A")
                {| queue_get := Some sample.airborne_line;
                   post_reply := sample.ok_reply |}
                airborne_reading ltac:(run)) as Hkeys.
  split.
  - apply Hkeys. run.
  - rewrite Hkeys. apply (bool_decide_unpack _). vm_compute. exact I.
Defined.

Lemma extractors_exclusive_witness :
  _extract_airborne_fields (H:=sample.runtime) sample.marine_line client.fields
  = Ret None.
Proof.
  destruct (extractors_exclusive (H:=sample.runtime) sample.marine_line []
              client.fields ∅) as [Hmarine _].
  apply Hmarine. run.
Defined.

Lemma get_extractor_case_witness :
  get_extractor (H:=sample.runtime) (u "at1M")
  = _extract_marine_fields (H:=sample.runtime).
Proof.
  destruct (get_extractor_case (H:=sample.runtime) (u "at1M")) as [Hmarine _].
  apply Hmarine. run.
Defined.

(** ** The decoder on encoded text *)

Section Utf8.
Ltac Zify.zify_post_hook ::= Z.to_euclidean_division_equations.

Ltac decide_tests :=
  repeat match goal with
    | |- context [(?a <? ?b)%N] =>
        first [ rewrite (proj2 (N.ltb_lt a b)) by lia
              | rewrite (proj2 (N.ltb_ge a b)) by lia ]
    | |- context [(?a <=? ?b)%N] =>
        first [ rewrite (proj2 (N.leb_le a b)) by lia
              | rewrite (proj2 (N.leb_gt a b)) by lia ]
    | |- context [(?a =? ?b)%N] =>
        first [ rewrite (proj2 (N.eqb_eq a b)) by lia
              | rewrite (proj2 (N.eqb_neq a b)) by lia ]
    | |- _ => progress cbn [andb negb]
    end.

Lemma utf8_decode_encode_char (c : N) (rest : list N) :
  scalar c →
  utf8_decode_ignore (utf8_encode_char c ++ rest) = c :: utf8_decode_ignore rest.
Proof.
  intros Hc. unfold scalar in Hc. unfold utf8_encode_char.
  destruct (N.ltb_spec c 128); [|destruct (N.ltb_spec c 2048);
    [|destruct (N.ltb_spec c 65536)]];
    cbn [app utf8_decode_ignore];
    unfold second_of_3, second_of_4, is_cont, cp2, cp3, cp4.
  - decide_tests. done.
  - decide_tests. f_equal. lia.
  - destruct (N.eqb_spec (224 + c / 4096) 224);
      [|destruct (N.eqb_spec (224 + c / 4096) 237)];
      decide_tests; f_equal; lia.
  - destruct (N.eqb_spec (240 + c / 262144) 240);
      [|destruct (N.eqb_spec (240 + c / 262144) 244)];
      decide_tests; f_equal; lia.
Qed.

End Utf8.

Lemma utf8_round_trip (s : str) :
  Forall scalar s → utf8_decode_ignore (utf8_encode s) = s.
Proof.
  induction 1 as [|c s Hc Hs IH]; [done|].
  cbn [utf8_encode flat_map]. rewrite utf8_decode_encode_char by done.
  f_equal. exact IH.
Qed.

Lemma filter_all {A} (P : A → bool) (l : list A) :
  Forall (fun x => P x = true) l → List.filter P l = l.
Proof.
  induction 1 as [|x l Hx Hl IH]; [done|]. cbn. by rewrite Hx, IH.
Qed.

Lemma utf8_encode_char_bytes (c b : N) :
  (32 ≤ c)%N → (c < 1114112)%N → In b (utf8_encode_char c) →
  (32 ≤ b ∧ b < 248)%N.
Proof.
  intros Hc Hmax. unfold utf8_encode_char.
  pose proof (N.mod_lt c 64 ltac:(lia)) as M1.
  pose proof (N.mod_lt (c / 64) 64 ltac:(lia)) as M2.
  pose proof (N.mod_lt (c / 4096) 64 ltac:(lia)) as M3.
  assert (c / 262144 < 5)%N as D4 by (apply N.Div0.div_lt_upper_bound; lia).
  assert (c / 4096 < 16 ∨ 65536 ≤ c)%N as D3.
  { destruct (N.lt_ge_cases c 65536); [left|by right].
    apply N.Div0.div_lt_upper_bound; lia. }
  assert (c / 64 < 32 ∨ 2048 ≤ c)%N as D2.
  { destruct (N.lt_ge_cases c 2048); [left|by right].
    apply N.Div0.div_lt_upper_bound; lia. }
  revert M1 M2 M3 D4 D3 D2.
  generalize ((c / 64) mod 64)%N. generalize ((c / 4096) mod 64)%N.
  generalize (c mod 64)%N. generalize (c / 262144)%N.
  generalize (c / 4096)%N. generalize (c / 64)%N.
  intros q2 q3 q4 r1 r3 r2 M1 M2 M3 D4 D3 D2.
  destruct (N.ltb_spec c 128); [|destruct (N.ltb_spec c 2048);
    [|destruct (N.ltb_spec c 65536)]]; cbn [In]; intros Hb;
    repeat destruct Hb as [<-|Hb]; try done; lia.
Qed.

(** X7. Text of printable characters survives the way out and back: encoded as
    UTF-8 and handed to [decode_bytearr], it is returned as it was. *)
Theorem decode_bytearr_round_trip (bs : list Byte.byte) (s : str) :
  Forall (fun c => (32 ≤ c)%N ∧ scalar c) s →
  List.map Byte.to_N bs = utf8_encode s →
  decode_bytearr (PyBytes bs) = Ret (Some s).
Proof.
  intros Hs Hbs. destruct (decode_bytearr_bytes bs) as [-> _].
  rewrite Hbs, filter_all.
  - rewrite utf8_round_trip; [done|].
    eapply Forall_impl; [exact Hs|]. by intros c [_ Hc].
  - apply Forall_forall. intros b Hb.
    apply list_elem_of_In, in_flat_map in Hb as (c & Hc & Hb).
    apply list_elem_of_In in Hc.
    apply (proj1 (Forall_forall _ _) Hs) in Hc as [Hc32 Hsc].
    destruct (utf8_encode_char_bytes c b) as [? ?]; [done| |done|].
    + unfold scalar in Hsc. lia.
    + apply bool_decide_eq_true. lia.
Qed.

(** ** The serial stream *)

Lemma find_found (x : Byte.byte) (b : list Byte.byte) :
  0 ≤ find x b →
  ∃ l0 r, b = l0 ++ x :: r ∧ (x ∉ l0) ∧ find x b = Z.of_nat (length l0).
Proof.
  induction b as [|c b IH]; cbn [find]; [lia|].
  destruct (Byte.eqb c x) eqn:Hc.
  - intros _. apply Byte.byte_dec_bl in Hc. subst c.
    exists [], b. split; [done|]. split; [apply not_elem_of_nil|done].
  - destruct (Z.ltb_spec (find x b) 0) as [|Hge]; [lia|]. intros _.
    destruct (IH Hge) as (l0 & r & -> & Hl0 & Hfind).
    exists (c :: l0), r. split; [done|]. split.
    + rewrite not_elem_of_cons. split; [|done]. intros <-.
      rewrite (Byte.byte_dec_lb (eq_refl x)) in Hc. discriminate.
    + rewrite Hfind. cbn [length]. lia.
Qed.

Lemma find_absent (x : Byte.byte) (b : list Byte.byte) :
  find x b < 0 → x ∉ b.
Proof.
  induction b as [|c b IH]; cbn [find]; [intros _; apply not_elem_of_nil|].
  destruct (Byte.eqb c x) eqn:Hc; [lia|].
  destruct (Z.ltb_spec (find x b) 0) as [Hlt|]; [|lia]. intros _.
  rewrite not_elem_of_cons. split; [|by apply IH]. intros ->.
  rewrite (Byte.byte_dec_lb (eq_refl c)) in Hc. discriminate.
Qed.

(** The slice up to a found line feed is a line, and the two slices make up
    the bytes. *)
Lemma slice_at_found (b : list Byte.byte) :
  0 ≤ find LF b →
  ∃ l0, take (Z.to_nat (find LF b + 1)) b = l0 ++ [LF] ∧ (LF ∉ l0) ∧
        b = (l0 ++ [LF]) ++ drop (Z.to_nat (find LF b + 1)) b.
Proof.
  intros Hfound. destruct (find_found LF b Hfound) as (l0 & r & Hb & Hl0 & Hfind).
  exists l0. rewrite Hfind.
  replace (Z.to_nat (Z.of_nat (length l0) + 1)) with (length (l0 ++ [LF]))
    by (rewrite length_app; cbn; lia).
  subst b. change (l0 ++ LF :: r) with (l0 ++ [LF] ++ r). rewrite !app_assoc.
  rewrite take_app_length, drop_app_length. done.
Qed.

Lemma readline_wait_spec (reads : list (list Byte.byte)) : ∀ buffer,
  LF ∉ buffer →
  ∃ consumed,
    reads = consumed ++ (readline_wait buffer reads).2 ∧
    buffer ++ concat consumed
    = bytes_of (readline_wait buffer reads).1.1 ++ (readline_wait buffer reads).1.2 ∧
    (bytes_of (readline_wait buffer reads).1.1 = [] ∨
     is_line (bytes_of (readline_wait buffer reads).1.1)).
Proof.
  induction reads as [|data reads IH]; intros buffer Hbuf; cbn [readline_wait].
  - exists []. cbn. rewrite app_nil_r. auto.
  - destruct data as [|c data].
    + exists [[]]. cbn. rewrite app_nil_r. auto.
    + destruct (Z.leb_spec 0 (find LF (c :: data))) as [Hfound|Hnone].
      * destruct (slice_at_found _ Hfound) as (l0 & Htake & Hl0 & Hsplit).
        exists [c :: data]. cbn [fst snd bytes_of concat app].
        split; [done|]. split.
        -- rewrite app_nil_r, Htake, <- app_assoc. f_equal. exact Hsplit.
        -- right. exists (buffer ++ l0). rewrite Htake, app_assoc.
           split; [done|]. rewrite elem_of_app. tauto.
      * destruct (IH (buffer ++ c :: data)) as (consumed & Hreads & Hbytes & Hline).
        { rewrite elem_of_app. intros [?|?]; [done|].
          by apply (find_absent LF (c :: data)); [lia|]. }
        exists ((c :: data) :: consumed). split; [by rewrite Hreads at 1|].
        split; [|done]. cbn [concat]. by rewrite app_assoc.
Qed.

Lemma readline_spec (buffer : list Byte.byte) (reads : list (list Byte.byte)) :
  ∃ consumed,
    reads = consumed ++ (readline buffer reads).2 ∧
    buffer ++ concat consumed
    = bytes_of (readline buffer reads).1.1 ++ (readline buffer reads).1.2 ∧
    (bytes_of (readline buffer reads).1.1 = [] ∨
     is_line (bytes_of (readline buffer reads).1.1)).
Proof.
  unfold readline.
  destruct (Z.leb_spec 0 (find LF buffer)) as [Hfound|Hnone].
  - destruct (slice_at_found _ Hfound) as (l0 & Htake & Hl0 & Hsplit).
    exists []. cbn [fst snd bytes_of concat app]. split; [done|]. split.
    + by rewrite app_nil_r, Htake.
    + right. exists l0. by rewrite Htake.
  - apply readline_wait_spec. apply find_absent. lia.
Qed.

(** X8. [readline] loses no byte and makes none up: the buffer and the reads it
    used are what it returns followed by the buffer it leaves; and what it
    returns is empty or one line, ended by its only line feed. *)
Theorem readline_conserves (buffer : list Byte.byte) (reads : list (list Byte.byte)) :
  ∃ consumed,
    reads = consumed ++ (readline buffer reads).2 ∧
    buffer ++ concat consumed
    = bytes_of (readline buffer reads).1.1 ++ (readline buffer reads).1.2 ∧
    (bytes_of (readline buffer reads).1.1 = [] ∨
     is_line (bytes_of (readline buffer reads).1.1)).
Proof. apply readline_spec. Qed.

Lemma enqueued_empty : enqueued [] = None.
Proof. reflexivity. Qed.

Lemma listen_stream (n : nat) : ∀ buffer reads queue,
  ∃ ls rest,
    buffer ++ concat reads = concat ls ++ rest ∧
    Forall is_line ls ∧
    (listen n buffer reads queue).1 = queue ++ omap enqueued ls.
Proof.
  induction n as [|n IH]; intros buffer reads queue.
  { exists [], (buffer ++ concat reads). cbn. by rewrite app_nil_r. }
  cbn [listen]. destruct reads as [|data reads].
  { exists [], buffer. cbn. by rewrite !app_nil_r. }
  destruct (readline_spec buffer (data :: reads)) as (consumed & Hreads & Hbytes & Hline).
  pose proof (readline_returns buffer (data :: reads)) as Hobj.
  destruct (readline buffer (data :: reads)) as [[raw buffer'] reads'].
  cbn [fst snd] in *.
  assert (Hstream : buffer ++ concat (data :: reads)
                    = bytes_of raw ++ buffer' ++ concat reads').
  { rewrite Hreads, concat_app, !app_assoc. by rewrite Hbytes. }
  rewrite Hstream. clear Hstream Hreads Hbytes.
  assert (Hskip : ∀ q, ∃ ls rest,
            buffer' ++ concat reads' = concat ls ++ rest ∧ Forall is_line ls ∧
            (listen n buffer' reads' q).1 = q ++ omap enqueued ls) by (intros; apply IH).
  destruct Hobj as [->|[bs ->]].
  - cbn [decode_bytearr bytes_of app]. rewrite bool_decide_true by done.
    apply Hskip.
  - cbn [bytes_of] in *. destruct Hline as [->|Hline].
    + change (decode_bytearr (PyBytes [])) with (Ret (Some ([] : str))).
      cbv beta iota. rewrite bool_decide_true by done. apply Hskip.
    + unfold enqueued in *. destruct (decode_bytearr_bytes bs) as [Hdec _].
      match type of Hdec with _ = Ret (Some ?l) => set (line := l) in * end.
      rewrite Hdec. case_bool_decide as Hempty.
      * destruct (Hskip queue) as (ls & rest & Hs & Hls & Hq).
        exists (bs :: ls), rest. cbn [concat omap list_omap].
        rewrite Hdec, bool_decide_true by done.
        split; [by rewrite Hs, app_assoc|]. split; [by constructor|done].
      * destruct (Hskip (queue ++ [line])) as (ls & rest & Hs & Hls & Hq).
        exists (bs :: ls), rest. cbn [concat omap list_omap].
        rewrite Hdec, bool_decide_false by done.
        split; [by rewrite Hs, app_assoc|]. split; [by constructor|].
        by rewrite Hq, <- app_assoc.
Qed.

(** X9. The queue that [listen] fills is the serial stream cut at its line feeds:
    the lines of a front part of the stream, each decoded, the empty ones left
    out, in the order they came, however the reads break the stream up. *)
Theorem listen_in_order (n : nat) (buffer : list Byte.byte)
    (reads : list (list Byte.byte)) :
  ∃ ls rest,
    buffer ++ concat reads = concat ls ++ rest ∧
    Forall is_line ls ∧
    (listen n buffer reads []).1 = omap enqueued ls.
Proof. apply (listen_stream n buffer reads []). Qed.

(** ** More on the sender, the collector and the configuration *)

Lemma fail_reply_status (reason : string) :
  ∃ m, Ret (fail_reply reason) = Ret (JObj m) ∧
       m !! u "Status" = Some (JStr (u "FAIL")).
Proof. eexists. split; [reflexivity|]. apply lookup_insert_eq. Qed.

(** X10. [_send_line] lets none of the exceptions it handles out: a post, or a
    body, that raises one of them gives a result whose [Status] is ["FAIL"]. *)
Theorem send_line_contains (reply : py response) :
  (∀ e, _send_line reply = Raise e → ¬ handled e) ∧
  (∀ e, handled e →
     reply = Raise e ∨ (∃ r, reply = Ret r ∧ response_json r = Raise e) →
     ∃ m, _send_line reply = Ret (JObj m) ∧
          m !! u "Status" = Some (JStr (u "FAIL"))).
Proof.
  unfold _send_line, handled. split.
  - intros e. destruct reply as [r|e']; cbn [mbind py_bind].
    + destruct (response_json r) as [j|e']; [discriminate|].
      destruct e'; try discriminate; intros [= <-];
        intros [?|[?|?]]; discriminate.
    + destruct e'; try discriminate; intros [= <-];
        intros [?|[?|?]]; discriminate.
  - intros e He [-> | (r & -> & Hr)]; cbn [mbind py_bind]; [|rewrite Hr];
      destruct He as [-> | [-> | ->]]; apply fail_reply_status.
Qed.

Section MoreSender.
Context `{PyRuntime}.
Variable sensor_type : str.

(** X11. One airborne line whose GPS week is beyond the binary64 range ends
    [run]: the extractor raises [OverflowError], the batch stays as it was,
    nothing is posted, and no later line is looked at. *)
Theorem run_ends_on_oversized_week (b : list (gmap str value)) (t : tick)
    (line t11 t12 : str) (gpsweek : Z) (gpssecond : float) (more : list tick) :
  upper sensor_type ≠ u "AT1M" →
  queue_get t = Some line →
  length (split 44 line) = 13%nat →
  split 44 line !! 11%nat = Some t11 → split 44 line !! 12%nat = Some t12 →
  py_int t11 = Some gpsweek → py_float t12 = Some gpssecond →
  float_of_int gpsweek = Raise OverflowError →
  run_from sensor_type b (t :: more) = ([], b, Some OverflowError).
Proof.
  intros Htype Hline Hlen H11 H12 Hi Hf Hw. cbn [run_from]. unfold run_turn.
  rewrite Hline. unfold get_extractor. rewrite bool_decide_false by exact Htype.
  rewrite (proj2 (airborne_raises line fields OverflowError)); [reflexivity|].
  split; [reflexivity|]. by exists t11, t12, gpsweek, gpssecond.
Qed.

(** X12. A reply that is JSON but not an object ends [run] with
    [AttributeError]: the batch was posted and is kept, and no later line is
    looked at. *)
Theorem run_ends_on_reply_not_object (b : list (gmap str value)) (t : tick)
    (data : gmap str value) (r : response) (j : json) (more : list tick) :
  reading_of sensor_type t = Some data → (10 ≤ length (data :: b))%nat →
  post_reply t = Ret r → response_json r = Ret j → (∀ m, j ≠ JObj m) →
  run_from sensor_type b (t :: more)
  = ([{| payload_data := data :: b; payload_length := length (data :: b) |}],
     data :: b, Some AttributeError).
Proof.
  intros Hread Hlen Hreply Hjson Hobj. cbn [run_from].
  assert (Hturn : run_turn sensor_type b t
                  = {| batch_queue := data :: b;
                       posted := Some {| payload_data := data :: b;
                                         payload_length := length (data :: b) |};
                       raised := Some AttributeError |}).
  { unfold reading_of in Hread. unfold run_turn.
    destruct (queue_get t) as [line|]; [|done].
    destruct (get_extractor sensor_type line fields) as [[d|]|e]; try done.
    injection Hread as ->.
    replace (length (data :: b) <? batch)%nat with false
      by (symmetry; apply Nat.ltb_ge; exact Hlen).
    unfold _send_line. rewrite Hreply. cbn [mbind py_bind]. rewrite Hjson.
    destruct j; try reflexivity. by destruct (Hobj m). }
  rewrite Hturn. reflexivity.
Qed.

(** X14. While the collector refuses every batch nothing is dropped: the batch
    holds every reading taken, newest first. *)
Theorem refused_batch_keeps_all (ticks : list tick) : ∀ b sent b',
  (∀ t, t ∈ ticks → ¬ replied_ok (post_reply t)) →
  run_from sensor_type b ticks = (sent, b', None) →
  b' = rev (omap (reading_of sensor_type) ticks) ++ b.
Proof.
  induction ticks as [|t ticks IH]; intros b sent b' Hno; [by intros [= _ <-]|].
  cbn [run_from omap list_omap].
  assert (Hb : batch_queue (run_turn sensor_type b t)
               = match reading_of sensor_type t with
                 | Some data => data :: b
                 | None => b
                 end).
  { destruct (reading_of sensor_type t) as [data|] eqn:Hread.
    - destruct (decide (length (data :: b) < batch)%nat) as [Hlt|Hge].
      + by rewrite (run_turn_below _ _ _ _ Hread Hlt).
      + destruct (run_turn_post sensor_type b t data Hread ltac:(lia))
          as (_ & -> & _).
        destruct (acknowledged (post_reply t)) eqn:Hack; [|done].
        apply acknowledged_iff in Hack.
        destruct (Hno t); [by left|done].
    - by destruct (run_turn_idle sensor_type b t Hread). }
  destruct (raised (run_turn sensor_type b t)) as [e0|]; [done|].
  destruct (run_from sensor_type (batch_queue (run_turn sensor_type b t)) ticks)
    as [[sent1 b1] e1] eqn:Hrest.
  intros [= _ <- ->]. rewrite Hb in Hrest.
  rewrite (IH _ _ _ ltac:(intros t' Ht'; apply Hno; by right) Hrest).
  destruct (reading_of sensor_type t); [|done].
  cbn [rev]. by rewrite <- app_assoc.
Qed.

(** X15. With a collector that takes every batch, every payload holds exactly ten
    readings, and fewer than ten are waiting after any turn. *)
Theorem accepted_batches_of_ten (ticks : list tick) : ∀ b sent b' e,
  (∀ t, t ∈ ticks → replied_ok (post_reply t)) →
  (length b < 10)%nat →
  run_from sensor_type b ticks = (sent, b', e) →
  (length b' < 10)%nat ∧
  Forall (fun p => payload_length p = 10%nat ∧ length (payload_data p) = 10%nat) sent.
Proof.
  induction ticks as [|t ticks IH]; intros b sent b' e Hok Hb.
  { intros [= <- <- <-]. by split. }
  cbn [run_from].
  assert (Hturn : (length (batch_queue (run_turn sensor_type b t)) < 10)%nat ∧
                  Forall (fun p => payload_length p = 10%nat ∧
                                   length (payload_data p) = 10%nat)
                    (match posted (run_turn sensor_type b t) with
                     | Some p => [p] | None => [] end)).
  { destruct (reading_of sensor_type t) as [data|] eqn:Hread.
    - destruct (decide (length (data :: b) < batch)%nat) as [Hlt|Hge].
      + rewrite (run_turn_below _ _ _ _ Hread Hlt). cbn.
        unfold batch in Hlt. cbn in Hlt. split; [lia|constructor].
      + destruct (run_turn_post sensor_type b t data Hread ltac:(lia))
          as (-> & -> & _).
        assert (acknowledged (post_reply t) = true) as Hack.
        { apply acknowledged_iff, Hok. by left. }
        rewrite Hack. split; [cbn; lia|].
        apply Forall_singleton. cbn [payload_length payload_data].
        unfold batch in Hge. cbn [length] in *. lia.
    - destruct (run_turn_idle sensor_type b t Hread) as [-> ->].
      split; [done|constructor]. }
  destruct Hturn as [Hlen Hposted].
  destruct (raised (run_turn sensor_type b t)) as [e0|].
  { intros [= <- <- <-]. by split. }
  destruct (run_from sensor_type (batch_queue (run_turn sensor_type b t)) ticks)
    as [[sent1 b1] e1] eqn:Hrest.
  intros [= <- <- <-].
  destruct (IH _ _ _ _ ltac:(intros t' Ht'; apply Hok; by right) Hlen Hrest)
    as [Hb1 Hsent1].
  split; [done|]. by apply Forall_app.
Qed.

End MoreSender.

(** X16. A lookup answered with status 200 that does not say whether the sensor
    exists makes [establish_connection] raise instead of returning: an object
    without [Exists] gives [KeyError], JSON that is no object [TypeError]; and
    a registration answered with JSON that is no object gives
    [AttributeError]. *)
Theorem establish_connection_raises (urljoin : str → str → str)
    (s : session) (host sensor_name sensor_type : str) :
  let uri := urljoin host (u "/sensor/" ++ sensor_type ++ u "/" ++ sensor_name) in
  let result := establish_connection urljoin s host sensor_name sensor_type in
  (∀ response m,
     session_get s uri = Ret response → status_code response = 200 →
     response_json response = Ret (JObj m) → m !! u "Exists" = None →
     result = Raise KeyError) ∧
  (∀ response j,
     session_get s uri = Ret response → status_code response = 200 →
     response_json response = Ret j → (∀ m, j ≠ JObj m) →
     result = Raise TypeError) ∧
  (∀ response m exists_ registered j,
     session_get s uri = Ret response → status_code response = 200 →
     response_json response = Ret (JObj m) → m !! u "Exists" = Some exists_ →
     truthy exists_ = false →
     session_put s uri = Ret registered → response_json registered = Ret j →
     (∀ m', j ≠ JObj m') →
     result = Raise AttributeError).
Proof.
  intros uri result. subst result. unfold establish_connection. fold uri.
  split; [|split].
  - intros response m Hget Hstatus Hjson Hexists.
    rewrite Hget. cbn [mbind py_bind]. rewrite Hjson. cbn [mbind py_bind].
    rewrite Hstatus. cbn [Z.eqb Pos.eqb negb subscript]. by rewrite Hexists.
  - intros response j Hget Hstatus Hjson Hobj.
    rewrite Hget. cbn [mbind py_bind]. rewrite Hjson. cbn [mbind py_bind].
    rewrite Hstatus. cbn [Z.eqb Pos.eqb negb].
    destruct j; try reflexivity. by destruct (Hobj m).
  - intros response m exists_ registered j Hget Hstatus Hjson Hexists Hfalse
      Hput Hjson' Hobj.
    rewrite Hget. cbn [mbind py_bind]. rewrite Hjson. cbn [mbind py_bind].
    rewrite Hstatus. cbn [Z.eqb Pos.eqb negb subscript]. rewrite Hexists.
    cbn [mbind py_bind]. rewrite Hfalse, Hput. cbn [mbind py_bind].
    rewrite Hjson'. destruct j; try reflexivity. by destruct (Hobj m0).
Qed.

Lemma establish_connection_raises_witness :
  establish_connection sample.urljoin vague_collector
    (u "http://collector") (u "AT1A-7") (u "AT1A") = Raise KeyError.
Proof.
  destruct (establish_connection_raises sample.urljoin vague_collector
              (u "http://collector") (u "AT1A-7") (u "AT1A")) as [Hkey _].
  eapply Hkey; reflexivity.
Defined.

Section MoreConfig.
Context `{PyRuntime}.

(** X17. On a file that exists: a file without section headers gives the
    empty mapping, and any other failure of [config.read] is passed on. Of
    the sections [Sensor], [crosscouplings] and [Platform], taken in that
    order, the first that is missing makes [read_config] raise [KeyError],
    and the first whose values the parser cannot interpolate makes it raise
    the parser's exception, whatever comes in later sections. *)
Theorem read_config_edges (path : config_file) :
  path_exists path = true →
  (config_read path = Raise MissingSectionHeaderError → read_config path = Ret ∅) ∧
  (∀ e, config_read path = Raise e → e ≠ MissingSectionHeaderError →
        read_config path = Raise e) ∧
  (∀ config,
     config_read path = Ret config →
     (_sections config !! u "Sensor" = None → read_config path = Raise KeyError) ∧
     (∀ e, section config (u "Sensor") = Raise e → read_config path = Raise e) ∧
     (∀ sensor_fld,
        section config (u "Sensor") = Ret sensor_fld →
        (_sections config !! u "crosscouplings" = None →
         read_config path = Raise KeyError) ∧
        (∀ e, section config (u "crosscouplings") = Raise e →
              read_config path = Raise e) ∧
        (∀ xcoupling_fld,
           section config (u "crosscouplings") = Ret xcoupling_fld →
           (_sections config !! u "Platform" = None →
            read_config path = Raise KeyError) ∧
           (∀ e, section config (u "Platform") = Raise e →
                 read_config path = Raise e)))).
Proof.
  intros Hex. unfold read_config. rewrite Hex. cbn [negb].
  destruct section_names as (Hsensor & Hxcoupling & Hplatform).
  split; [|split].
  - intros ->. reflexivity.
  - intros e -> He. destruct e; try reflexivity. by destruct He.
  - intros config ->. split; [|split].
    + intros Hmissing. by rewrite (section_missing _ _ Hsensor Hmissing).
    + intros e ->. reflexivity.
    + intros sensor_fld ->. cbn [mbind py_bind]. split; [|split].
      * intros Hmissing. by rewrite (section_missing _ _ Hxcoupling Hmissing).
      * intros e ->. reflexivity.
      * intros xcoupling_fld ->. cbn [mbind py_bind]. split.
        -- intros Hmissing. by rewrite (section_missing _ _ Hplatform Hmissing).
        -- intros e ->. reflexivity.
Qed.

(** X18. When the parser hands over the three sections, option names in lower
    case as it stores them, the result has exactly the white-listed names of
    the sections, each with the cast of its value, the [Platform] section
    taking precedence over [crosscouplings], and that over [Sensor]. *)
Theorem read_config_precedence (path : config_file) (config : ConfigParser)
    (sensor_fld xcoupling_fld platform_fld : gmap str str) (k : str) :
  path_exists path = true → config_read path = Ret config →
  section config (u "Sensor") = Ret sensor_fld →
  section config (u "crosscouplings") = Ret xcoupling_fld →
  section config (u "Platform") = Ret platform_fld →
  (∀ k1, k1 ∈ dom (platform_fld ∪ xcoupling_fld ∪ sensor_fld) → lower k1 = k1) →
  ∃ result,
    read_config path = Ret result ∧
    result !! k
    = if bool_decide (k ∈ set_map (D:=gset str) lower valid_fields) then
        match platform_fld !! k with
        | Some v => Some (safe_cast v)
        | None =>
            match xcoupling_fld !! k with
            | Some v => Some (safe_cast v)
            | None => safe_cast <$> sensor_fld !! k
            end
        end
      else None.
Proof.
  intros Hex Hread Hs Hc Hp Hlow.
  rewrite (read_config_sections _ _ _ _ _ Hex Hread Hs Hc Hp).
  eexists. split; [reflexivity|].
  set (merged := platform_fld ∪ xcoupling_fld ∪ sensor_fld) in *.
  assert (Hmerged : match platform_fld !! k with
                    | Some v => Some (safe_cast v)
                    | None =>
                        match xcoupling_fld !! k with
                        | Some v => Some (safe_cast v)
                        | None => safe_cast <$> sensor_fld !! k
                        end
                    end = safe_cast <$> merged !! k).
  { unfold merged. rewrite !lookup_union.
    destruct (platform_fld !! k), (xcoupling_fld !! k), (sensor_fld !! k);
      reflexivity. }
  rewrite Hmerged. clear Hmerged.
  case_bool_decide as Hvalid.
  - destruct (merged !! k) as [v|] eqn:Hk; cbn [fmap option_fmap option_map].
    + assert (lower k = k) as Hlk.
      { apply Hlow, elem_of_dom. eexists. exact Hk. }
      rewrite <- Hlk at 1. apply elem_of_list_to_map_1'.
      * intros y Hy. apply list_elem_of_fmap in Hy as ([k1 v1] & Heq & Hin).
        apply list_elem_of_filter in Hin as [_ Hin].
        apply elem_of_map_to_list in Hin. injection Heq as Hl ->.
        cbn [fst snd] in *.
        assert (lower k1 = k1) as Hlk1.
        { apply Hlow, elem_of_dom. eexists. exact Hin. }
        congruence.
      * apply comprehension_covers; [exact Hk|]. rewrite Hlk. exact Hvalid.
    + apply eq_None_not_Some. intros [v Hv].
      apply comprehension_lookup in Hv as (k0 & v0 & Hk0 & Heq & _ & _).
      assert (lower k0 = k0) as Hlk0.
      { apply Hlow, elem_of_dom. eexists. exact Hk0. }
      congruence.
  - apply eq_None_not_Some. intros [v Hv].
    apply comprehension_lookup in Hv as (k0 & v0 & _ & Heq & _ & Hv0).
    apply Hvalid. rewrite Heq. exact Hv0.
Qed.

End MoreConfig.

(** ** The properties above on the sample objects *)

Example airborne_raises_example :
  _extract_airborne_fields (H:=sample.runtime) oversized_week_line client.fields
  = Raise OverflowError.
Proof. vm_compute. reflexivity. Qed.

Lemma decode_bytearr_round_trip_witness :
  decode_bytearr (PyBytes accented_bytes) = Ret (Some accented_text).
Proof.
  apply decode_bytearr_round_trip; [|run].
  unfold scalar. apply (bool_decide_unpack _). vm_compute. exact I.
Defined.

Lemma run_ends_on_oversized_week_witness :
  run_from (H:=sample.runtime) (u "AT1A") [] (oversized_tick :: sample.ten_ticks)
  = ([], [], Some OverflowError).
Proof.
  apply (run_ends_on_oversized_week (H:=sample.runtime) (u "AT1A") [] _
           oversized_week_line (49%N :: replicate 400 48%N) (u "0.0")
           (10 ^ 400) 0%float); run.
Defined.

Lemma list_tick_read :
  is_Some (reading_of (H:=sample.runtime) (u "AT1A") list_tick).
Proof. run. Qed.

Lemma run_ends_on_reply_not_object_witness :
  (run_from (H:=sample.runtime) (u "AT1A") (replicate 9 ∅)
     (list_tick :: sample.ten_ticks)).2
  = Some AttributeError.
Proof.
  destruct list_tick_read as [data Hread].
  rewrite (run_ends_on_reply_not_object (H:=sample.runtime) (u "AT1A")
             (replicate 9 ∅) list_tick data
             {| status_code := 200; response_json := Ret (JArr [JStr (u "OK")]) |}
             (JArr [JStr (u "OK")]) sample.ten_ticks Hread).
  - reflexivity.
  - cbn [length replicate]. lia.
  - reflexivity.
  - reflexivity.
  - intros m. discriminate.
Defined.

Lemma refused_reply_not_ok : ¬ replied_ok sample.refused_reply.
Proof.
  intros (r & m & Hr & Hm & Hs). injection Hr as <-. injection Hm as <-.
  vm_compute in Hs. discriminate Hs.
Qed.

(** Eleven lines and a collector that refuses: the batch is posted with ten
    readings and again with eleven, and all eleven are kept. *)
Lemma refused_batch_keeps_all_witness :
  payload_length <$>
    (run_from (H:=sample.runtime) (u "AT1A") [] sample.eleven_refused).1.1
  = [10; 11]%nat ∧
  length (run_from (H:=sample.runtime) (u "AT1A") [] sample.eleven_refused).1.2
  = 11%nat.
Proof.
  split; [run|].
  destruct (run_from (H:=sample.runtime) (u "AT1A") [] sample.eleven_refused)
    as [[sent b'] e] eqn:Hrun.
  assert (e = None) as ->.
  { change e with (sent, b', e).2. rewrite <- Hrun. run. }
  rewrite (refused_batch_keeps_all (H:=sample.runtime) (u "AT1A")
             sample.eleven_refused [] sent b').
  - run.
  - intros t Ht. apply elem_of_replicate in Ht as [-> _].
    exact refused_reply_not_ok.
  - exact Hrun.
Defined.

Lemma ok_reply_ok : replied_ok sample.ok_reply.
Proof. eexists _, _. split; [reflexivity|]. split; [reflexivity|]. run. Qed.

Lemma accepted_batches_of_ten_witness :
  Forall (fun p => payload_length p = 10%nat ∧ length (payload_data p) = 10%nat)
    (run_from (H:=sample.runtime) (u "AT1A") (replicate 9 ∅) two_accepted).1.1.
Proof.
  destruct (run_from (H:=sample.runtime) (u "AT1A") (replicate 9 ∅) two_accepted)
    as [[sent b'] e] eqn:Hrun.
  apply (accepted_batches_of_ten (H:=sample.runtime) (u "AT1A")
           two_accepted (replicate 9 ∅) sent b' e).
  - intros t Ht. apply elem_of_replicate in Ht as [-> _]. exact ok_reply_ok.
  - cbn [length replicate]. lia.
  - exact Hrun.
Defined.

Lemma headless_sections_read :
  ∃ config sensor_fld xcoupling_fld,
    config_read headless_ini = Ret config ∧
    section config (u "Sensor") = Ret sensor_fld ∧
    section config (u "crosscouplings") = Ret xcoupling_fld ∧
    _sections config !! u "Platform" = None.
Proof.
  eexists _, _, _. split; [reflexivity|].
  repeat split; vm_compute; reflexivity.
Qed.

(** A file without a [Platform] section, and one whose [Sensor] section has
    [Meter = 100%] besides: the first gives [KeyError], the second the
    parser's [InterpolationSyntaxError]. *)
Lemma read_config_edges_witness :
  read_config (H:=sample.runtime) headless_ini = Raise KeyError ∧
  read_config (H:=sample.runtime) percent_headless_ini
  = Raise InterpolationSyntaxError.
Proof.
  split.
  - destruct (read_config_edges (H:=sample.runtime) headless_ini eq_refl)
      as (_ & _ & Hsections).
    destruct headless_sections_read
      as (config & sensor_fld & xcoupling_fld & Hconfig & Hs & Hc & Hp).
    destruct (Hsections config Hconfig) as (_ & _ & Hsensor).
    destruct (Hsensor sensor_fld Hs) as (_ & _ & Hxcoupling).
    destruct (Hxcoupling xcoupling_fld Hc) as [Hplatform _].
    exact (Hplatform Hp).
  - destruct (read_config_edges (H:=sample.runtime) percent_headless_ini eq_refl)
      as (_ & _ & Hsections).
    destruct (Hsections _ eq_refl) as (_ & Hsensor & _).
    apply Hsensor. vm_compute. reflexivity.
Defined.

Lemma meter_sections_read :
  section sample.meter_config (u "Sensor")
  = Ret (list_to_map sample.meter_sensor) ∧
  section sample.meter_config (u "crosscouplings")
  = Ret (list_to_map sample.meter_crosscouplings) ∧
  section sample.meter_config (u "Platform")
  = Ret (list_to_map sample.meter_platform).
Proof. repeat split; vm_compute; reflexivity. Qed.

Lemma read_config_precedence_witness :
  ∃ result,
    read_config (H:=sample.runtime) sample.meter_ini = Ret result ∧
    result !! u "g0" = Some (VFloat 1%float).
Proof.
  destruct meter_sections_read as (Hs & Hc & Hp).
  destruct (read_config_precedence (H:=sample.runtime) sample.meter_ini
              sample.meter_config (list_to_map sample.meter_sensor)
              (list_to_map sample.meter_crosscouplings)
              (list_to_map sample.meter_platform) (u "g0")
              eq_refl eq_refl Hs Hc Hp)
    as (result & Hres & Hval).
  { apply (bool_decide_unpack
             (set_Forall (fun k1 => lower k1 = k1)
                (dom ((list_to_map sample.meter_platform : gmap str str)
                      ∪ list_to_map sample.meter_crosscouplings
                      ∪ list_to_map sample.meter_sensor)))).
    vm_compute. exact I. }
  exists result. split; [exact Hres|].
  refine (eq_trans Hval _). run.
Defined.

Lemma send_line_contains_witness :
  ∃ m, _send_line (Raise ConnectionRefusedError) = Ret (JObj m) ∧
       m !! u "Status" = Some (JStr (u "FAIL")).
Proof.
  destruct (send_line_contains (Raise ConnectionRefusedError)) as [_ Hfail].
  apply (Hfail ConnectionRefusedError).
  - right. left. reflexivity.
  - left. reflexivity.
Defined.
